(** * lambdalabs-bot: the polling-and-launch loop of [main.go]

    A shallow embedding of the two variants of the bot found in
    [src/main.go]: the one that serves [/health] (module [Health], the
    first program of the file) and the one that only runs the loop
    (module [Plain], the second program).

    Go values are modelled as follows.
    - [int] is a 64-bit integer, carried by [Z]; the one place where the
      program multiplies ([time.Duration(n) * time.Second]) wraps around.
    - [map[string]T] is a [gmap string T]; a nil map is the empty map.
    - slices are lists; a nil slice is the empty list.
    - a pair [(v, err)] returned by a Go function is a pair whose second
      component is [option error], [None] standing for [nil].
    - the network, the clock and the logger are the outside world: every
      call to them is recorded as an [Event] of a chronological trace,
      and what the network answers is given by an oracle that sees the
      trace so far. *)

From Stdlib Require Import ZArith Ascii String List Lia.
From stdpp Require Import base option gmap strings list pretty.

Set Warnings "-register-all".

Local Open Scope string_scope.
Local Open Scope list_scope.
Local Open Scope Z_scope.

(** ** Data model (shared by both variants) *)

Record Region := { Name : string }.

Record InstanceTypeData :=
  { RegionsWithCapacityAvailable : list Region }.

Record InstanceTypes :=
  { Data : gmap string InstanceTypeData }.

Record LaunchPayload :=
  { RegionName : string;
    InstanceTypeName : string;
    SSHKeyNames : list string;
    Quantity : Z }.

(** The Go [error] interface: all the program ever does with an error is
    to print it and to call [err.Error()]. *)
Inductive error := errors_New (msg : string).

Definition error_Error (e : error) : string :=
  match e with errors_New msg => msg end.

(** A value of type [interface{}] as [encoding/json] decodes it: nil,
    bool, float64 (given by its IEEE-754 bit pattern), string, slice or
    map with string keys. *)
Inductive any :=
| nil_any
| Bool_any (b : bool)
| Float64_any (bits : Z)
| String_any (s : string)
| Slice_any (l : list any)
| Map_any (m : gmap string any).

(** A JSON document as [json.Marshal] writes it for the structs of the
    program, read as the value a JSON parser gets from it: object
    fields are kept in the order of the struct, and a string is the
    string the text denotes, escapes resolved. *)
Inductive JSON :=
| JString (s : string)
| JInt (n : Z)
| JArray (l : list JSON)
| JObject (fields : list (string * JSON))
| JAny (v : any).

(** An outgoing request as [http.NewRequest], [SetBasicAuth] and
    [Header.Set] build it (the credentials are in the [Authorization]
    header, nowhere else), and what the program reads of a response:
    its body, undecoded.  The status code is there, and never looked at. *)
Record Request :=
  { Method : string;
    URL : string;
    Body : option JSON;
    Header : gmap string string }.

Record Response :=
  { StatusCode : Z;
    RespBody : string }.

(** Arguments of a [log.Printf]/[log.Println] call. *)
Inductive LogArg :=
| ArgString (s : string)
| ArgInt (n : Z)
| ArgError (e : error)
| ArgAny (v : any).

(** The calls the program makes to the outside world. *)
Inductive Event :=
| EvLog (format : string) (args : list LogArg)
| EvDo (req : Request) (res : Response + error)
| EvSleep (d : Z).

Inductive Control := Continue | Break.

(** ** The pieces of the Go library the program calls *)

(** [int64] wrap-around, for [time.Duration] arithmetic. *)
Definition wrap64 (z : Z) : Z := (z + 2 ^ 63) mod 2 ^ 64 - 2 ^ 63.

Definition time_Second : Z := 1000000000.

(** [time.Duration(n) * time.Second], in nanoseconds. *)
Definition seconds (n : Z) : Z := wrap64 (n * time_Second).

(** [os.Getenv]: the value of the variable, empty when it is not set. *)
Definition Getenv (env : gmap string string) (key : string) : string :=
  default "" (env !! key).

(** [godotenv.Load].  [dotenv] is what reading the [.env] file gives:
    [Some] of its variables when the file is there and parses, [None]
    when it is missing or does not parse.  In the first case the
    variables are added to the environment, those already set are not
    overridden; in the second nothing is set and an error is returned. *)
Definition godotenv_Load (dotenv : option (gmap string string))
    (env : gmap string string) : gmap string string * option error :=
  match dotenv with
  | Some file => (env ∪ file, None)
  | None => (env, Some (errors_New "godotenv: .env could not be loaded"))
  end.

(** [strconv.Atoi] for a 64-bit [int], after Go's [strconv/atoi.go]:
    a fast path for short strings and [ParseInt(s, 10, 0)] for the rest. *)
Inductive NumError := ErrSyntax | ErrRange.

Definition byte_val (c : ascii) : Z := Z.of_N (N_of_ascii c).

Definition maxUint64 : Z := 2 ^ 64 - 1.

(** The loop of [ParseUint] in base 10: [n] is the number read so far. *)
Fixpoint ParseUint_loop (s : string) (n : Z) : Z * option NumError :=
  match s with
  | EmptyString => (n, None)
  | String c rest =>
      let b := byte_val c in
      if negb ((48 <=? b) && (b <=? 57)) then (0, Some ErrSyntax)
      else
        let d := b - 48 in
        if maxUint64 / 10 + 1 <=? n then (maxUint64, Some ErrRange)
        else
          let n10 := n * 10 in
          let n1 := (n10 + d) mod 2 ^ 64 in
          if (n1 <? n10) || (maxUint64 <? n1) then (maxUint64, Some ErrRange)
          else ParseUint_loop rest n1
  end.

Definition ParseUint (s : string) : Z * option NumError :=
  match s with
  | EmptyString => (0, Some ErrSyntax)
  | _ => ParseUint_loop s 0
  end.

Definition ParseInt (s : string) : Z * option NumError :=
  match s with
  | EmptyString => (0, Some ErrSyntax)
  | String c rest =>
      let neg := Ascii.eqb c "-"%char in
      let s1 := if Ascii.eqb c "+"%char || neg then rest else s in
      match ParseUint s1 with
      | (_, Some ErrSyntax) => (0, Some ErrSyntax)
      | (un, _) =>
          let cutoff := 2 ^ 63 in
          if negb neg && (cutoff <=? un) then (cutoff - 1, Some ErrRange)
          else if neg && (cutoff <? un) then (- cutoff, Some ErrRange)
          else (if neg then - un else un, None)
      end
  end.

(** The digit loop of the fast path: [ch -= '0'] is byte arithmetic. *)
Fixpoint Atoi_loop (s : string) (n : Z) : Z * option NumError :=
  match s with
  | EmptyString => (n, None)
  | String c rest =>
      let ch := (byte_val c - 48) mod 256 in
      if 9 <? ch then (0, Some ErrSyntax)
      else Atoi_loop rest (n * 10 + ch)
  end.

Definition Atoi (s : string) : Z * option NumError :=
  let sLen := Z.of_nat (String.length s) in
  if (0 <? sLen) && (sLen <? 19) then
    match s with
    | EmptyString => (0, Some ErrSyntax)
    | String c rest =>
        let signed := Ascii.eqb c "-"%char || Ascii.eqb c "+"%char in
        let s1 := if signed then rest else s in
        if signed && (Z.of_nat (String.length s1) <? 1) then (0, Some ErrSyntax)
        else
          match Atoi_loop s1 0 with
          | (n, None) => (if Ascii.eqb c "-"%char then - n else n, None)
          | (_, Some e) => (0, Some e)
          end
    end
  else ParseInt s.

(** The table of [utf8.DecodeRuneInString] for a first byte above 0x7F:
    the length of the sequence the byte opens and the range the second
    byte must lie in; [None] for a byte that opens no sequence. *)
Definition utf8_first (b : Z) : option (nat * Z * Z) :=
  if (194 <=? b) && (b <=? 223) then Some (2%nat, 128, 191)
  else if b =? 224 then Some (3%nat, 160, 191)
  else if b =? 237 then Some (3%nat, 128, 159)
  else if (225 <=? b) && (b <=? 239) then Some (3%nat, 128, 191)
  else if b =? 240 then Some (4%nat, 144, 191)
  else if b =? 244 then Some (4%nat, 128, 143)
  else if (241 <=? b) && (b <=? 243) then Some (4%nat, 128, 191)
  else None.

Definition in_range (c : ascii) (lo hi : Z) : bool :=
  (lo <=? byte_val c) && (byte_val c <=? hi).

(** U+FFFD in UTF-8: the bytes EF BF BD. *)
Definition replacement_char : string :=
  String (ascii_of_nat 239) (String (ascii_of_nat 191) (String (ascii_of_nat 189) "")).

(** The string a JSON text written by [encoding/json] denotes for a Go
    string: the string itself, but that every byte at which no valid
    UTF-8 sequence starts is replaced by U+FFFD. *)
Fixpoint json_string (s : string) : string :=
  match s with
  | EmptyString => EmptyString
  | String c0 t0 =>
      let bad := replacement_char +:+ json_string t0 in
      if byte_val c0 <? 128 then String c0 (json_string t0)
      else
        match utf8_first (byte_val c0), t0 with
        | Some (2%nat, lo, hi), String c1 t1 =>
            if in_range c1 lo hi
            then String c0 (String c1 (json_string t1))
            else bad
        | Some (3%nat, lo, hi), String c1 (String c2 t2) =>
            if in_range c1 lo hi && in_range c2 128 191
            then String c0 (String c1 (String c2 (json_string t2)))
            else bad
        | Some (4%nat, lo, hi), String c1 (String c2 (String c3 t3)) =>
            if in_range c1 lo hi && in_range c2 128 191 && in_range c3 128 191
            then String c0 (String c1 (String c2 (String c3 (json_string t3))))
            else bad
        | _, _ => bad
        end
  end.

(** A string that is valid UTF-8 from its first byte to its last. *)
Fixpoint valid_utf8 (s : string) : bool :=
  match s with
  | EmptyString => true
  | String c0 t0 =>
      if byte_val c0 <? 128 then valid_utf8 t0
      else
        match utf8_first (byte_val c0), t0 with
        | Some (2%nat, lo, hi), String c1 t1 =>
            in_range c1 lo hi && valid_utf8 t1
        | Some (3%nat, lo, hi), String c1 (String c2 t2) =>
            in_range c1 lo hi && in_range c2 128 191 && valid_utf8 t2
        | Some (4%nat, lo, hi), String c1 (String c2 (String c3 t3)) =>
            in_range c1 lo hi && in_range c2 128 191 && in_range c3 128 191
            && valid_utf8 t3
        | _, _ => false
        end
  end.

(** [json.Marshal] of a [LaunchPayload]: one field per struct tag, in
    the order of the struct, every string coerced to valid UTF-8.  It
    cannot fail on this type. *)
Definition json_Marshal (payload : LaunchPayload) : JSON * option error :=
  (JObject
     [("region_name", JString (json_string (RegionName payload)));
      ("instance_type_name", JString (json_string (InstanceTypeName payload)));
      ("ssh_key_names",
       JArray ((λ key, JString (json_string key)) <$> SSHKeyNames payload));
      ("quantity", JInt (Quantity payload))],
   None).

(** [base64.StdEncoding.EncodeToString]: three bytes give four letters
    of the alphabet, and what is left at the end is padded with [=]. *)
Definition base64_alphabet : string :=
  "ABCDEFGHIJKLMNOPQRSTUVWXYZabcdefghijklmnopqrstuvwxyz0123456789+/".

Definition base64_letter (n : Z) : ascii :=
  match String.get (Z.to_nat n) base64_alphabet with
  | Some c => c
  | None => "="%char
  end.

Fixpoint base64 (s : string) : string :=
  match s with
  | EmptyString => EmptyString
  | String a EmptyString =>
      let x := byte_val a in
      String (base64_letter (Z.shiftr x 2))
        (String (base64_letter (Z.shiftl (Z.land x 3) 4)) "==")
  | String a (String b EmptyString) =>
      let x := byte_val a in
      let y := byte_val b in
      String (base64_letter (Z.shiftr x 2))
        (String (base64_letter (Z.lor (Z.shiftl (Z.land x 3) 4) (Z.shiftr y 4)))
           (String (base64_letter (Z.shiftl (Z.land y 15) 2)) "="))
  | String a (String b (String c rest)) =>
      let x := byte_val a in
      let y := byte_val b in
      let z := byte_val c in
      String (base64_letter (Z.shiftr x 2))
        (String (base64_letter (Z.lor (Z.shiftl (Z.land x 3) 4) (Z.shiftr y 4)))
           (String (base64_letter (Z.lor (Z.shiftl (Z.land y 15) 2) (Z.shiftr z 6)))
              (String (base64_letter (Z.land z 63)) (base64 rest))))
  end.

(** [http.NewRequest], for the two methods and the well-formed URLs the
    program passes to it, [req.SetBasicAuth] and [req.Header.Set].
    [SetBasicAuth] writes the [Authorization] header: [Basic] and the
    base64 of the user name, a colon and the password. *)
Definition http_NewRequest (method url : string) (body : option JSON)
    : Request * option error :=
  ({| Method := method; URL := url; Body := body; Header := ∅ |}, None).

Definition Header_Set (req : Request) (key value : string) : Request :=
  {| Method := Method req; URL := URL req; Body := Body req;
     Header := <[key := value]> (Header req) |}.

Definition SetBasicAuth (req : Request) (username password : string) : Request :=
  Header_Set req "Authorization"
    ("Basic " +:+ base64 (username +:+ ":" +:+ password)).

(** ** The outside world and the state the program threads through it *)

(** What the provider answers to a request, given everything that has
    happened so far, and the two uses of [json.NewDecoder(..).Decode]:
    into an [InstanceTypes] and into an [interface{}]. *)
Record World :=
  { net_Do : list Event → Request → Response + error;
    Decode_InstanceTypes : string → InstanceTypes * option error;
    Decode_any : string → any * option error }.

(** The mutable global variables of the program ([G]) and the trace of
    its calls, oldest first. *)
Record State (G : Type) := mkState { globals : G; trace : list Event }.
Arguments mkState {G} _ _.
Arguments globals {G} _.
Arguments trace {G} _.

Definition M (G A : Type) : Type := State G → A * State G.

#[global] Instance M_ret {G} : MRet (M G) := λ A x s, (x, s).
#[global] Instance M_bind {G} : MBind (M G) :=
  λ A B f m s, let '(x, s') := m s in f x s'.

Definition emit {G} (e : Event) : M G unit :=
  λ s, (tt, mkState (globals s) (trace s ++ [e])).

Definition log_Println {G} (line : string) : M G unit := emit (EvLog line []).

Definition log_Printf {G} (format : string) (args : list LogArg) : M G unit :=
  emit (EvLog format args).

Definition time_Sleep {G} (d : Z) : M G unit := emit (EvSleep d).

Definition client_Do {G} (w : World) (req : Request) : M G (Response + error) :=
  λ s, let res := net_Do w (trace s) req in
       (res, mkState (globals s) (trace s ++ [EvDo req res])).

Definition store {G} (g : G) : M G unit := λ s, (tt, mkState g (trace s)).

(** What a run of the [for] loop has come to when the iterations counted
    by the fuel are used up: the loop has left through [break], or it is
    still going. *)
Inductive Outcome := Returned | Running.

Definition baseUrl : string := "https://cloud.lambdalabs.com/api/v1/".

(** ** Reading a trace *)

(** The two requests the program sends, as [getInstanceTypes] and
    [launchInstance] build them. *)
Definition fetch_request (apiKey : string) : Request :=
  SetBasicAuth (fst (http_NewRequest "GET" (baseUrl +:+ "instance-types") None))
    apiKey "".

Definition launch_request (apiKey instanceTypeName sshKeyName regionName : string)
    : Request :=
  Header_Set
    (SetBasicAuth
       (fst (http_NewRequest "POST" (baseUrl +:+ "instance-operations/launch")
               (Some (fst (json_Marshal
                             {| RegionName := regionName;
                                InstanceTypeName := instanceTypeName;
                                SSHKeyNames := [sshKeyName];
                                Quantity := 1 |})))))
       apiKey "")
    "Content-Type" "application/json".

(** What has been added to the trace between two states. *)
Definition since {G} (s s' : State G) : list Event :=
  drop (length (trace s)) (trace s').

(** A call to the provider, of either kind. *)
Definition is_call (e : Event) : bool :=
  match e with
  | EvDo _ _ => true
  | _ => false
  end.

(** A call to the launch endpoint. *)
Definition is_launch (e : Event) : bool :=
  match e with
  | EvDo req _ => bool_decide (URL req = baseUrl +:+ "instance-operations/launch")
  | _ => false
  end.

(** A launch call that [launchInstance] returns from without error: the
    provider answered and the answer decoded. *)
Definition launch_ok (w : World) (e : Event) : bool :=
  match e with
  | EvDo req (inl resp) =>
      bool_decide (URL req = baseUrl +:+ "instance-operations/launch")
      && match Decode_any w (RespBody resp) with
         | (_, None) => true
         | (_, Some _) => false
         end
  | _ => false
  end.

(** The line only the branch after [checkInstanceAvailability] logs. *)
Definition is_check_error_log (e : Event) : bool :=
  match e with
  | EvLog format _ =>
      bool_decide
        (format = "Error checking instance availability: %v. Retrying in %d seconds.\n")
  | _ => false
  end.

(** ** The variant that serves [/health] (first program of [main.go]) *)

Module Health.

Record HealthStatus :=
  { Status : string;
    Result : any;
    Error : string }.

(** The package-level variables that [init] sets. *)
Record Config :=
  { apiKey : string;
    instanceTypeName : string;
    sshKeyName : string;
    checkInterval : Z;
    errorWait : Z;
    port : Z }.

(** [init], from the [.env] file (if there is one) and the environment
    of the process; the second component is what it logs. *)
Definition init (dotenv : option (gmap string string))
    (environ : gmap string string) : Config * list Event :=
  let '(env, err) := godotenv_Load dotenv environ in
  let logged :=
    match err with
    | Some _ => [EvLog "No .env file found" []]
    | None => []
    end in
  let apiKey := Getenv env "LAMBDA_API_KEY" in
  let instanceTypeName := Getenv env "INSTANCE_TYPE_NAME" in
  let instanceTypeName :=
    if decide (instanceTypeName = "") then "gpu_1x_a6000" else instanceTypeName in
  let sshKeyName := Getenv env "SSH_KEY_NAME" in
  let '(checkInterval, _) := Atoi (Getenv env "CHECK_INTERVAL_SECONDS") in
  let checkInterval := if checkInterval =? 0 then 30 else checkInterval in
  let '(errorWait, _) := Atoi (Getenv env "ERROR_WAIT_SECONDS") in
  let errorWait := if errorWait =? 0 then 10 else errorWait in
  let '(port, _) := Atoi (Getenv env "PORT") in
  let port := if port =? 0 then 5000 else port in
  ({| apiKey := apiKey; instanceTypeName := instanceTypeName;
      sshKeyName := sshKeyName; checkInterval := checkInterval;
      errorWait := errorWait; port := port |}, logged).

(** [json.NewEncoder(w).Encode(healthStatus)]: the two [omitempty]
    fields are left out when nil, respectively empty; the strings are
    coerced to valid UTF-8. *)
Definition json_Marshal_HealthStatus (h : HealthStatus) : JSON :=
  JObject
    ([("status", JString (json_string (Status h)))]
     ++ match Result h with
        | nil_any => []
        | v => [("result", JAny v)]
        end
     ++ (if decide (Error h = "") then []
         else [("error", JString (json_string (Error h)))])).

Section Program.

Variable w : World.
Variable cfg : Config.

Let St := State HealthStatus.
Let Prog := M HealthStatus.

Definition getInstanceTypes : Prog (InstanceTypes * option error) :=
  _ ← log_Printf "Checking availability for instance type %s..."
        [ArgString (instanceTypeName cfg)];
  let '(req, err) := http_NewRequest "GET" (baseUrl +:+ "instance-types") None in
  match err with
  | Some err => mret ({| Data := ∅ |}, Some err)
  | None =>
      let req := SetBasicAuth req (apiKey cfg) "" in
      res ← client_Do w req;
      match res with
      | inr err => mret ({| Data := ∅ |}, Some err)
      | inl resp =>
          let '(instanceTypes, err) := Decode_InstanceTypes w (RespBody resp) in
          match err with
          | Some err => mret ({| Data := ∅ |}, Some err)
          | None => mret (instanceTypes, None)
          end
      end
  end.

Definition checkInstanceAvailability (instanceTypes : InstanceTypes)
    : string * option error :=
  match Data instanceTypes !! instanceTypeName cfg with
  | Some data =>
      match RegionsWithCapacityAvailable data with
      | r0 :: _ => (Name r0, None)
      | [] => ("", None)
      end
  | None => ("", None)
  end.

Definition launchInstance (regionName : string) : Prog (any * option error) :=
  let payload :=
    {| RegionName := regionName;
       InstanceTypeName := instanceTypeName cfg;
       SSHKeyNames := [sshKeyName cfg];
       Quantity := 1 |} in
  let '(jsonPayload, err) := json_Marshal payload in
  match err with
  | Some err => mret (nil_any, Some err)
  | None =>
      let '(req, err) :=
        http_NewRequest "POST" (baseUrl +:+ "instance-operations/launch")
          (Some jsonPayload) in
      match err with
      | Some err => mret (nil_any, Some err)
      | None =>
          let req := SetBasicAuth req (apiKey cfg) "" in
          let req := Header_Set req "Content-Type" "application/json" in
          res ← client_Do w req;
          match res with
          | inr err => mret (nil_any, Some err)
          | inl resp =>
              let '(result, err) := Decode_any w (RespBody resp) in
              match err with
              | Some err => mret (nil_any, Some err)
              | None => mret (result, None)
              end
          end
      end
  end.

(** One pass through the body of [for { ... }] in [launchInstanceLoop]:
    [Continue] when the pass ends in [continue] or reaches the end of
    the body, [Break] when it ends in [break]. *)
Definition loopBody : Prog Control :=
  _ ← log_Println "========================================";
  '(instanceTypes, err) ← getInstanceTypes;
  match err with
  | Some err =>
      _ ← log_Printf "Error fetching instance types: %v. Retrying in %d seconds.\n"
            [ArgError err; ArgInt (errorWait cfg)];
      _ ← store {| Status := "error"; Result := nil_any; Error := error_Error err |};
      _ ← time_Sleep (seconds (errorWait cfg));
      mret Continue
  | None =>
      let '(regionName, err) := checkInstanceAvailability instanceTypes in
      match err with
      | Some err =>
          _ ← log_Printf
                "Error checking instance availability: %v. Retrying in %d seconds.\n"
                [ArgError err; ArgInt (errorWait cfg)];
          _ ← store {| Status := "error"; Result := nil_any; Error := error_Error err |};
          _ ← time_Sleep (seconds (errorWait cfg));
          mret Continue
      | None =>
          jump ←
            (if decide (regionName ≠ "") then
               '(result, err) ← launchInstance regionName;
               match err with
               | Some err =>
                   _ ← log_Printf
                         "Error launching instance: %v. Retrying in %d seconds.\n"
                         [ArgError err; ArgInt (errorWait cfg)];
                   _ ← store {| Status := "error"; Result := nil_any;
                                Error := error_Error err |};
                   _ ← time_Sleep (seconds (errorWait cfg));
                   mret (Some Continue)
               | None =>
                   _ ← log_Printf "Instance launch result: %v\n" [ArgAny result];
                   _ ← store {| Status := "instance launched"; Result := result;
                                Error := "" |};
                   mret (Some Break)
               end
             else
               _ ← log_Printf
                     "No available regions found for %s. Checking again in %d seconds.\n"
                     [ArgString (instanceTypeName cfg); ArgInt (checkInterval cfg)];
               mret None);
          match jump with
          | Some c => mret c
          | None =>
              _ ← time_Sleep (seconds (checkInterval cfg));
              mret Continue
          end
      end
  end.

(** [launchInstanceLoop], cut off after [fuel] passes. *)
Fixpoint launchInstanceLoop (fuel : nat) : Prog Outcome :=
  match fuel with
  | O => mret Running
  | S fuel' =>
      c ← loopBody;
      match c with
      | Break => mret Returned
      | Continue => launchInstanceLoop fuel'
      end
  end.

(** [healthHandler]: the header it sets and the body it writes, given
    the value it has read from [healthStatus].  The handler runs beside
    the loop with no lock: which value it reads, and whether it reads
    one the loop ever stored, is not said here. *)
Definition healthHandler (read : HealthStatus) : gmap string string * JSON :=
  ({[ "Content-Type" := "application/json" ]}, json_Marshal_HealthStatus read).

(** The value [healthStatus] is declared with. *)
Definition healthStatus_declared : HealthStatus :=
  {| Status := "starting"; Result := nil_any; Error := "" |}.

(** [main] up to the point where it starts the loop: one line logged,
    [healthStatus] set to running.  The server that [main] then starts
    only ever reads [healthStatus]. *)
Definition main_before_loop : Prog unit :=
  _ ← log_Println "Starting instance launcher script...";
  store {| Status := "running"; Result := nil_any; Error := "" |}.

Definition main_start : St :=
  snd (main_before_loop (mkState healthStatus_declared [])).

End Program.

End Health.

(** ** The variant without the health endpoint (second program of [main.go]) *)

Module Plain.

(** The package-level variables that [init] sets. *)
Record Config :=
  { apiKey : string;
    instanceTypeName : string;
    sshKeyName : string;
    checkInterval : Z;
    errorWait : Z }.

(** [init], from the [.env] file (if there is one) and the environment
    of the process; the second component is what it logs. *)
Definition init (dotenv : option (gmap string string))
    (environ : gmap string string) : Config * list Event :=
  let '(env, err) := godotenv_Load dotenv environ in
  let logged :=
    match err with
    | Some _ => [EvLog "No .env file found" []]
    | None => []
    end in
  let apiKey := Getenv env "LAMBDA_API_KEY" in
  let instanceTypeName := Getenv env "INSTANCE_TYPE_NAME" in
  let instanceTypeName :=
    if decide (instanceTypeName = "") then "gpu_1x_a6000" else instanceTypeName in
  let sshKeyName := Getenv env "SSH_KEY_NAME" in
  let '(checkInterval, _) := Atoi (Getenv env "CHECK_INTERVAL_SECONDS") in
  let checkInterval := if checkInterval =? 0 then 30 else checkInterval in
  let '(errorWait, _) := Atoi (Getenv env "ERROR_WAIT_SECONDS") in
  let errorWait := if errorWait =? 0 then 10 else errorWait in
  ({| apiKey := apiKey; instanceTypeName := instanceTypeName;
      sshKeyName := sshKeyName; checkInterval := checkInterval;
      errorWait := errorWait |}, logged).

Section Program.

Variable w : World.
Variable cfg : Config.

Let St := State unit.
Let Prog := M unit.

Definition getInstanceTypes : Prog (InstanceTypes * option error) :=
  _ ← log_Printf "Checking availability for instance type %s..."
        [ArgString (instanceTypeName cfg)];
  let '(req, err) := http_NewRequest "GET" (baseUrl +:+ "instance-types") None in
  match err with
  | Some err => mret ({| Data := ∅ |}, Some err)
  | None =>
      let req := SetBasicAuth req (apiKey cfg) "" in
      res ← client_Do w req;
      match res with
      | inr err => mret ({| Data := ∅ |}, Some err)
      | inl resp =>
          let '(instanceTypes, err) := Decode_InstanceTypes w (RespBody resp) in
          match err with
          | Some err => mret ({| Data := ∅ |}, Some err)
          | None => mret (instanceTypes, None)
          end
      end
  end.

Definition checkInstanceAvailability (instanceTypes : InstanceTypes)
    : string * option error :=
  match Data instanceTypes !! instanceTypeName cfg with
  | Some data =>
      match RegionsWithCapacityAvailable data with
      | r0 :: _ => (Name r0, None)
      | [] => ("", None)
      end
  | None => ("", None)
  end.

Definition launchInstance (regionName : string) : Prog (any * option error) :=
  let payload :=
    {| RegionName := regionName;
       InstanceTypeName := instanceTypeName cfg;
       SSHKeyNames := [sshKeyName cfg];
       Quantity := 1 |} in
  let '(jsonPayload, err) := json_Marshal payload in
  match err with
  | Some err => mret (nil_any, Some err)
  | None =>
      let '(req, err) :=
        http_NewRequest "POST" (baseUrl +:+ "instance-operations/launch")
          (Some jsonPayload) in
      match err with
      | Some err => mret (nil_any, Some err)
      | None =>
          let req := SetBasicAuth req (apiKey cfg) "" in
          let req := Header_Set req "Content-Type" "application/json" in
          res ← client_Do w req;
          match res with
          | inr err => mret (nil_any, Some err)
          | inl resp =>
              let '(result, err) := Decode_any w (RespBody resp) in
              match err with
              | Some err => mret (nil_any, Some err)
              | None => mret (result, None)
              end
          end
      end
  end.

(** One pass through the body of [for { ... }] in [launchInstanceLoop]:
    [Continue] when the pass ends in [continue] or reaches the end of
    the body, [Break] when it ends in [break]. *)
Definition loopBody : Prog Control :=
  _ ← log_Println "========================================";
  '(instanceTypes, err) ← getInstanceTypes;
  match err with
  | Some err =>
      _ ← log_Printf "Error fetching instance types: %v. Retrying in %d seconds.\n"
            [ArgError err; ArgInt (errorWait cfg)];
      _ ← time_Sleep (seconds (errorWait cfg));
      mret Continue
  | None =>
      let '(regionName, err) := checkInstanceAvailability instanceTypes in
      match err with
      | Some err =>
          _ ← log_Printf
                "Error checking instance availability: %v. Retrying in %d seconds.\n"
                [ArgError err; ArgInt (errorWait cfg)];
          _ ← time_Sleep (seconds (errorWait cfg));
          mret Continue
      | None =>
          jump ←
            (if decide (regionName ≠ "") then
               '(result, err) ← launchInstance regionName;
               match err with
               | Some err =>
                   _ ← log_Printf
                         "Error launching instance: %v. Retrying in %d seconds.\n"
                         [ArgError err; ArgInt (errorWait cfg)];
                   _ ← time_Sleep (seconds (errorWait cfg));
                   mret (Some Continue)
               | None =>
                   _ ← log_Printf "Instance launch result: %v\n" [ArgAny result];
                   mret (Some Break)
               end
             else
               _ ← log_Printf
                     "No available regions found for %s. Checking again in %d seconds.\n"
                     [ArgString (instanceTypeName cfg); ArgInt (checkInterval cfg)];
               mret None);
          match jump with
          | Some c => mret c
          | None =>
              _ ← time_Sleep (seconds (checkInterval cfg));
              mret Continue
          end
      end
  end.

(** [launchInstanceLoop], cut off after [fuel] passes. *)
Fixpoint launchInstanceLoop (fuel : nat) : Prog Outcome :=
  match fuel with
  | O => mret Running
  | S fuel' =>
      c ← loopBody;
      match c with
      | Break => mret Returned
      | Continue => launchInstanceLoop fuel'
      end
  end.

(** [main] up to the point where it calls the loop. *)
Definition main_before_loop : Prog unit :=
  log_Println "Starting lambdalabs-bot...".

Definition main_start : St := snd (main_before_loop (mkState tt [])).

End Program.

End Plain.
(** ** From the first program to the second *)

(** The second program has the variables of the first but [port] and
    [healthStatus]. *)
Definition plain_config (cfg : Health.Config) : Plain.Config :=
  {| Plain.apiKey := Health.apiKey cfg;
     Plain.instanceTypeName := Health.instanceTypeName cfg;
     Plain.sshKeyName := Health.sshKeyName cfg;
     Plain.checkInterval := Health.checkInterval cfg;
     Plain.errorWait := Health.errorWait cfg |}.

Definition with_port (cfg : Plain.Config) (port : Z) : Health.Config :=
  {| Health.apiKey := Plain.apiKey cfg;
     Health.instanceTypeName := Plain.instanceTypeName cfg;
     Health.sshKeyName := Plain.sshKeyName cfg;
     Health.checkInterval := Plain.checkInterval cfg;
     Health.errorWait := Plain.errorWait cfg;
     Health.port := port |}.

Definition forget {G} (s : State G) : State unit := mkState tt (trace s).

(** ** Sample configurations, catalogs and worlds *)

(** A world in which capacity is seen on every poll, the first launch
    call fails in transit and the second goes through. *)
Definition world_retry : World :=
  {| net_Do := λ h req,
       if bool_decide (Method req = "GET") then
         inl {| StatusCode := 200; RespBody := "catalog" |}
       else if bool_decide (Exists (λ e, is_launch e = true) h) then
         inl {| StatusCode := 200; RespBody := "launched" |}
       else inr (errors_New "connection reset");
     Decode_InstanceTypes := λ _,
       ({| Data := {[ "gpu_1x_a6000" :=
                        {| RegionsWithCapacityAvailable :=
                             [ {| Name := "us-east-1" |}; {| Name := "us-west-2" |} ] |} ]} |},
        None);
     Decode_any := λ _, (Map_any {[ "id" := String_any "abc123" ]}, None) |}.

(** The configuration of a process started with no [.env] file and an
    empty environment, but for the SSH key. *)
Definition cfg_default : Health.Config :=
  {| Health.apiKey := "";
     Health.instanceTypeName := "gpu_1x_a6000";
     Health.sshKeyName := "my-key";
     Health.checkInterval := 30;
     Health.errorWait := 10;
     Health.port := 5000 |}.

Definition catalog_of (regions : list Region) : InstanceTypes :=
  {| Data := {[ "gpu_1x_a6000" := {| RegionsWithCapacityAvailable := regions |} ]} |}.

(** The catalogs of the scenarios: two regions, no region, another
    instance type only, and a first region with an empty name. *)
Definition catalog_two : InstanceTypes :=
  catalog_of [ {| Name := "us-east-1" |}; {| Name := "us-west-2" |} ].

Definition catalog_none : InstanceTypes := catalog_of [].

Definition catalog_other : InstanceTypes :=
  {| Data := {[ "gpu_8x_a100" :=
                  {| RegionsWithCapacityAvailable := [ {| Name := "us-east-1" |} ] |} ]} |}.

Definition catalog_unnamed : InstanceTypes :=
  catalog_of [ {| Name := "" |}; {| Name := "us-west-2" |} ].

(** A world whose provider always answers, the catalog it serves being
    given, and every launch going through with the payload
    [{"id": "abc123"}]. *)
Definition world_serving (catalog : InstanceTypes) : World :=
  {| net_Do := λ _ req,
       if bool_decide (Method req = "GET") then
         inl {| StatusCode := 200; RespBody := "catalog" |}
       else inl {| StatusCode := 200; RespBody := "launched" |};
     Decode_InstanceTypes := λ _, (catalog, None);
     Decode_any := λ _, (Map_any {[ "id" := String_any "abc123" ]}, None) |}.

(** A world whose provider cannot be reached. *)
Definition world_down : World :=
  {| net_Do := λ _ _, inr (errors_New "connection refused");
     Decode_InstanceTypes := λ _, ({| Data := ∅ |}, None);
     Decode_any := λ _, (nil_any, None) |}.

(** A world in which capacity is there and the launch call fails. *)
Definition world_launch_fails : World :=
  {| net_Do := λ _ req,
       if bool_decide (Method req = "GET") then
         inl {| StatusCode := 200; RespBody := "catalog" |}
       else inr (errors_New "connection reset");
     Decode_InstanceTypes := λ _, (catalog_two, None);
     Decode_any := λ _, (nil_any, None) |}.

(** A configuration whose SSH key name is the one byte FF, which is not
    valid UTF-8. *)
Definition cfg_odd_key : Health.Config :=
  {| Health.apiKey := "";
     Health.instanceTypeName := "gpu_1x_a6000";
     Health.sshKeyName := String (ascii_of_nat 255) "";
     Health.checkInterval := 30;
     Health.errorWait := 10;
     Health.port := 5000 |}.

(** A world that serves the catalog with two regions and in which every
    launch goes through with the given payload. *)
Definition world_launching (result : any) : World :=
  {| net_Do := λ _ req,
       if bool_decide (Method req = "GET") then
         inl {| StatusCode := 200; RespBody := "catalog" |}
       else inl {| StatusCode := 201; RespBody := "launched" |};
     Decode_InstanceTypes := λ _, (catalog_two, None);
     Decode_any := λ _, (result, None) |}.

(** ** Reading the configuration *)

(** The three numeric settings of [init], the variable each is read
    from, the value it falls back to, and where it ends up. *)
Inductive Setting := PollInterval | ErrorRetryInterval | ListenPort.

Definition setting_key (x : Setting) : string :=
  match x with
  | PollInterval => "CHECK_INTERVAL_SECONDS"
  | ErrorRetryInterval => "ERROR_WAIT_SECONDS"
  | ListenPort => "PORT"
  end.

Definition setting_default (x : Setting) : Z :=
  match x with
  | PollInterval => 30
  | ErrorRetryInterval => 10
  | ListenPort => 5000
  end.

Definition setting_value (x : Setting) (cfg : Health.Config) : Z :=
  match x with
  | PollInterval => Health.checkInterval cfg
  | ErrorRetryInterval => Health.errorWait cfg
  | ListenPort => Health.port cfg
  end.

(** A decimal integer as one writes it: an optional sign and one digit
    or more. *)
Definition is_digit (c : ascii) : bool :=
  (48 <=? byte_val c) && (byte_val c <=? 57).

Fixpoint all_digits (s : string) : bool :=
  match s with
  | EmptyString => true
  | String c rest => is_digit c && all_digits rest
  end.

Definition numeric (s : string) : bool :=
  match s with
  | EmptyString => false
  | String c rest =>
      if Ascii.eqb c "-"%char || Ascii.eqb c "+"%char then
        negb (String.eqb rest "") && all_digits rest
      else all_digits s
  end.

(** What the first byte of a string is, when a number is written there. *)
Definition starts_with_digit (s : string) : Prop :=
  match s with
  | String c _ => is_digit c = true
  | EmptyString => False
  end.

(** ** The shapes of a pass and of a run *)

(** A call to the instance-types endpoint, and a call to the clock. *)
Definition is_fetch (e : Event) : bool :=
  match e with
  | EvDo req _ => bool_decide (URL req = baseUrl +:+ "instance-types")
  | _ => false
  end.

Definition is_sleep (e : Event) : bool :=
  match e with
  | EvSleep _ => true
  | _ => false
  end.

(** How a call to the provider has failed for the function that made
    it: in transit, or when its answer was decoded. *)
Definition failed_with {A} (decode : string → A * option error)
    (res : Response + error) (err : error) : Prop :=
  match res with
  | inr e => e = err
  | inl resp => snd (decode (RespBody resp)) = Some err
  end.

(** The events one pass of the loop of the first program adds, by the
    branch it takes: the fetch fails; no region is found; the launch
    fails; the launch succeeds. *)
Inductive pass_events (w : World) (cfg : Health.Config)
    : Control → list Event → Prop :=
| pass_fetch_failed res err :
    failed_with (Decode_InstanceTypes w) res err →
    pass_events w cfg Continue
      [EvLog "========================================" [];
       EvLog "Checking availability for instance type %s..."
         [ArgString (Health.instanceTypeName cfg)];
       EvDo (fetch_request (Health.apiKey cfg)) res;
       EvLog "Error fetching instance types: %v. Retrying in %d seconds.\n"
         [ArgError err; ArgInt (Health.errorWait cfg)];
       EvSleep (seconds (Health.errorWait cfg))]
| pass_no_region resp catalog :
    Decode_InstanceTypes w (RespBody resp) = (catalog, None) →
    Health.checkInstanceAvailability cfg catalog = ("", None) →
    pass_events w cfg Continue
      [EvLog "========================================" [];
       EvLog "Checking availability for instance type %s..."
         [ArgString (Health.instanceTypeName cfg)];
       EvDo (fetch_request (Health.apiKey cfg)) (inl resp);
       EvLog "No available regions found for %s. Checking again in %d seconds.\n"
         [ArgString (Health.instanceTypeName cfg);
          ArgInt (Health.checkInterval cfg)];
       EvSleep (seconds (Health.checkInterval cfg))]
| pass_launch_failed resp catalog regionName res err :
    Decode_InstanceTypes w (RespBody resp) = (catalog, None) →
    Health.checkInstanceAvailability cfg catalog = (regionName, None) →
    regionName ≠ "" →
    failed_with (Decode_any w) res err →
    pass_events w cfg Continue
      [EvLog "========================================" [];
       EvLog "Checking availability for instance type %s..."
         [ArgString (Health.instanceTypeName cfg)];
       EvDo (fetch_request (Health.apiKey cfg)) (inl resp);
       EvDo (launch_request (Health.apiKey cfg) (Health.instanceTypeName cfg)
               (Health.sshKeyName cfg) regionName) res;
       EvLog "Error launching instance: %v. Retrying in %d seconds.\n"
         [ArgError err; ArgInt (Health.errorWait cfg)];
       EvSleep (seconds (Health.errorWait cfg))]
| pass_launched resp catalog regionName resp' result :
    Decode_InstanceTypes w (RespBody resp) = (catalog, None) →
    Health.checkInstanceAvailability cfg catalog = (regionName, None) →
    regionName ≠ "" →
    Decode_any w (RespBody resp') = (result, None) →
    pass_events w cfg Break
      [EvLog "========================================" [];
       EvLog "Checking availability for instance type %s..."
         [ArgString (Health.instanceTypeName cfg)];
       EvDo (fetch_request (Health.apiKey cfg)) (inl resp);
       EvDo (launch_request (Health.apiKey cfg) (Health.instanceTypeName cfg)
               (Health.sshKeyName cfg) regionName) (inl resp');
       EvLog "Instance launch result: %v\n" [ArgAny result]].

(** The events of a run: passes that end in [continue], closed by a
    pass that ends in [break] when the loop has returned. *)
Inductive run_events (w : World) (cfg : Health.Config)
    : Outcome → list Event → Prop :=
| run_out_of_passes : run_events w cfg Running []
| run_continue pass rest outcome :
    pass_events w cfg Continue pass →
    run_events w cfg outcome rest →
    run_events w cfg outcome (pass ++ rest)
| run_break pass :
    pass_events w cfg Break pass →
    run_events w cfg Returned pass.

(** The values the loop and [main] leave in [healthStatus]. *)
Definition health_wellformed (h : Health.HealthStatus) : Prop :=
  (Health.Status h = "running" ∧ Health.Result h = nil_any ∧ Health.Error h = "")
  ∨ (Health.Status h = "error" ∧ Health.Result h = nil_any)
  ∨ (Health.Status h = "instance launched" ∧ Health.Error h = "").

(** A world that differs from [w] in the status code of every answer. *)
Definition override_status (code : Z) (w : World) : World :=
  {| net_Do := λ h req,
       match net_Do w h req with
       | inl resp => inl {| StatusCode := code; RespBody := RespBody resp |}
       | inr err => inr err
       end;
     Decode_InstanceTypes := Decode_InstanceTypes w;
     Decode_any := Decode_any w |}.

(** * Properties *)

Import Health.

(** ** The library model on a few inputs *)

Example Atoi_30 : Atoi "30" = (30, None).
Proof. reflexivity. Qed.

Example Atoi_empty : Atoi "" = (0, Some ErrSyntax).
Proof. reflexivity. Qed.

Example Atoi_neg : Atoi "-5" = (-5, None).
Proof. reflexivity. Qed.

Example Atoi_word : Atoi "ten" = (0, Some ErrSyntax).
Proof. reflexivity. Qed.

Example Atoi_min : Atoi "-9223372036854775808" = (- 2 ^ 63, None).
Proof. vm_compute. reflexivity. Qed.

Example Atoi_big : Atoi "9223372036854775808" = (2 ^ 63 - 1, Some ErrRange).
Proof. vm_compute. reflexivity. Qed.

(** ** The three functions the loop calls, flattened *)

Section Flat.

Variable w : World.
Variable cfg : Config.

Lemma getInstanceTypes_eq (s : State HealthStatus) :
  getInstanceTypes w cfg s =
  let h := trace s ++ [EvLog "Checking availability for instance type %s..."
                         [ArgString (instanceTypeName cfg)]] in
  let res := net_Do w h (fetch_request (apiKey cfg)) in
  (match res with
   | inr err => ({| Data := ∅ |}, Some err)
   | inl resp =>
       match Decode_InstanceTypes w (RespBody resp) with
       | (_, Some err) => ({| Data := ∅ |}, Some err)
       | (instanceTypes, None) => (instanceTypes, None)
       end
   end,
   mkState (globals s) (h ++ [EvDo (fetch_request (apiKey cfg)) res])).
Proof.
  unfold getInstanceTypes, log_Printf, client_Do, emit, mbind, mret, M_bind, M_ret.
  cbn -[baseUrl]. fold (fetch_request (apiKey cfg)).
  destruct (net_Do w _ _) as [resp|err]; [|reflexivity].
  destruct (Decode_InstanceTypes w (RespBody resp)) as [it [e|]]; reflexivity.
Qed.

Lemma launchInstance_eq (regionName : string) (s : State HealthStatus) :
  launchInstance w cfg regionName s =
  let req := launch_request (apiKey cfg) (instanceTypeName cfg) (sshKeyName cfg)
               regionName in
  let res := net_Do w (trace s) req in
  (match res with
   | inr err => (nil_any, Some err)
   | inl resp =>
       match Decode_any w (RespBody resp) with
       | (_, Some err) => (nil_any, Some err)
       | (result, None) => (result, None)
       end
   end,
   mkState (globals s) (trace s ++ [EvDo req res])).
Proof.
  unfold launchInstance, client_Do, mbind, mret, M_bind, M_ret.
  cbn -[baseUrl].
  fold (launch_request (apiKey cfg) (instanceTypeName cfg) (sshKeyName cfg) regionName).
  destruct (net_Do w _ _) as [resp|err]; [|reflexivity].
  destruct (Decode_any w (RespBody resp)) as [it [e|]]; reflexivity.
Qed.

End Flat.

Section FlatLoop.

Variable w : World.
Variable cfg : Config.

Lemma loopBody_eq (s : State HealthStatus) :
  loopBody w cfg s =
  let s1 := mkState (globals s)
              (trace s ++ [EvLog "========================================" []]) in
  match getInstanceTypes w cfg s1 with
  | ((_, Some err), s2) =>
      (Continue,
       mkState {| Status := "error"; Result := nil_any; Error := error_Error err |}
         (trace s2 ++
          [EvLog "Error fetching instance types: %v. Retrying in %d seconds.\n"
             [ArgError err; ArgInt (errorWait cfg)];
           EvSleep (seconds (errorWait cfg))]))
  | ((instanceTypes, None), s2) =>
      match checkInstanceAvailability cfg instanceTypes with
      | (_, Some err) =>
          (Continue,
           mkState {| Status := "error"; Result := nil_any; Error := error_Error err |}
             (trace s2 ++
              [EvLog "Error checking instance availability: %v. Retrying in %d seconds.\n"
                 [ArgError err; ArgInt (errorWait cfg)];
               EvSleep (seconds (errorWait cfg))]))
      | (regionName, None) =>
          if decide (regionName ≠ "") then
            match launchInstance w cfg regionName s2 with
            | ((_, Some err), s3) =>
                (Continue,
                 mkState {| Status := "error"; Result := nil_any;
                            Error := error_Error err |}
                   (trace s3 ++
                    [EvLog "Error launching instance: %v. Retrying in %d seconds.\n"
                       [ArgError err; ArgInt (errorWait cfg)];
                     EvSleep (seconds (errorWait cfg))]))
            | ((result, None), s3) =>
                (Break,
                 mkState {| Status := "instance launched"; Result := result;
                            Error := "" |}
                   (trace s3 ++ [EvLog "Instance launch result: %v\n" [ArgAny result]]))
            end
          else
            (Continue,
             mkState (globals s2)
               (trace s2 ++
                [EvLog "No available regions found for %s. Checking again in %d seconds.\n"
                   [ArgString (instanceTypeName cfg); ArgInt (checkInterval cfg)];
                 EvSleep (seconds (checkInterval cfg))]))
      end
  end.
Proof.
  unfold loopBody, log_Println, log_Printf, time_Sleep, store, emit,
    mbind, mret, M_bind, M_ret.
  cbn zeta. cbn [globals trace].
  destruct (getInstanceTypes w cfg _) as [[it [e|]] s2].
  { cbn [globals trace]. rewrite <- app_assoc. reflexivity. }
  destruct (checkInstanceAvailability cfg it) as [region [e|]].
  { cbn [globals trace]. rewrite <- app_assoc. reflexivity. }
  destruct (decide (region ≠ "")).
  - destruct (launchInstance w cfg region s2) as [[r [e|]] s3].
    + cbn [globals trace]. rewrite <- app_assoc. reflexivity.
    + reflexivity.
  - cbn [globals trace]. rewrite <- app_assoc. reflexivity.
Qed.

End FlatLoop.

(** ** What one pass and a whole run add to the trace *)

Lemma since_app {G} (s s' : State G) (new : list Event) :
  trace s' = trace s ++ new → since s s' = new.
Proof. intros E. unfold since. rewrite E. apply drop_app_length. Qed.

Lemma fetch_is_not_launch (k : string) (res : Response + error) :
  is_launch (EvDo (fetch_request k) res) = false.
Proof. reflexivity. Qed.

Lemma launch_is_launch (k t key r : string) (res : Response + error) :
  is_launch (EvDo (launch_request k t key r) res) = true.
Proof. reflexivity. Qed.

Lemma launch_ok_is_launch (w : World) (e : Event) :
  launch_ok w e = true → is_launch e = true.
Proof.
  destruct e as [| req [resp|err] |]; cbn; try discriminate.
  intros H. apply andb_prop in H. tauto.
Qed.

Lemma is_launch_is_call (e : Event) : is_launch e = true → is_call e = true.
Proof. destruct e; cbn; congruence. Qed.

Lemma not_launch_not_ok (w : World) (e : Event) :
  is_launch e = false → launch_ok w e = false.
Proof.
  intros H. destruct (launch_ok w e) eqn:E; [|reflexivity].
  apply launch_ok_is_launch in E. congruence.
Qed.

Section Shape.

Variable w : World.
Variable cfg : Config.

(** The events of one pass: a pass that ends in [continue] holds no
    successful launch; a pass that ends in [break] holds exactly one, and
    only the line that logs its result comes after it. *)
Lemma loopBody_shape (s : State HealthStatus) :
  ∃ new, trace (snd (loopBody w cfg s)) = trace s ++ new ∧
    Forall (λ e, is_check_error_log e = false) new ∧
    match fst (loopBody w cfg s) with
    | Continue => Forall (λ e, launch_ok w e = false) new
    | Break =>
        ∃ front req resp result,
          new = front ++ [EvDo req (inl resp);
                          EvLog "Instance launch result: %v\n" [ArgAny result]] ∧
          launch_ok w (EvDo req (inl resp)) = true ∧
          Decode_any w (RespBody resp) = (result, None) ∧
          Forall (λ e, is_launch e = false) front
    end.
Proof.
  rewrite loopBody_eq. cbn zeta. rewrite getInstanceTypes_eq. cbn zeta.
  cbn [globals trace].
  set (h1 := (trace s ++ _) ++ _).
  destruct (net_Do w h1 _) as [resp|err] eqn:Hnet.
  2:{ eexists. cbn [fst snd trace]. split.
      { subst h1. rewrite <- !app_assoc. cbn [app]. reflexivity. }
      split; repeat constructor. }
  destruct (Decode_InstanceTypes w (RespBody resp)) as [it [e|]] eqn:Hdec.
  { eexists. cbn [fst snd trace]. split.
    { subst h1. rewrite <- !app_assoc. cbn [app]. reflexivity. }
    split; repeat constructor. }
  destruct (checkInstanceAvailability cfg it) as [region [e|]] eqn:Hchk.
  { exfalso. unfold checkInstanceAvailability in Hchk.
    destruct (Data it !! _) as [d|]; [destruct (RegionsWithCapacityAvailable d)|];
      discriminate. }
  destruct (decide (region ≠ "")).
  - rewrite launchInstance_eq. cbn zeta. cbn [globals trace].
    set (req := launch_request _ _ _ _).
    destruct (net_Do w _ req) as [resp2|err2] eqn:Hnet2.
    2:{ eexists. cbn [fst snd trace]. split.
        { subst h1. rewrite <- !app_assoc. cbn [app]. reflexivity. }
        split; repeat constructor. }
    destruct (Decode_any w (RespBody resp2)) as [r [e|]] eqn:Hdec2.
    + eexists. cbn [fst snd trace]. split.
      { subst h1. rewrite <- !app_assoc. cbn [app]. reflexivity. }
      split; repeat constructor.
      cbn. rewrite Hdec2. apply andb_false_r.
    + eexists. cbn [fst snd trace]. split.
      { subst h1. rewrite <- !app_assoc. cbn [app]. reflexivity. }
      split; [repeat constructor|].
      eexists [_; _; _], req, resp2, r. split; [reflexivity|].
      split; [|split; [exact Hdec2|repeat constructor]].
      cbn. rewrite Hdec2. reflexivity.
  - eexists. cbn [fst snd trace]. split.
    { subst h1. rewrite <- !app_assoc. cbn [app]. reflexivity. }
    split; repeat constructor.
Qed.

End Shape.

Lemma split_at_the_launch {A} (P : A → bool) (front : list A) (a b : A)
    (pre : list A) (e : A) (post : list A) :
  front ++ [a; b] = pre ++ e :: post →
  P e = true → Forall (λ x, P x = false) front → P b = false →
  pre = front ∧ e = a ∧ post = [b].
Proof.
  revert pre. induction front as [|f front IH]; intros pre E He Hfront Hb.
  - destruct pre as [|x pre]; cbn in E.
    + injection E as -> <-. auto.
    + injection E as -> E. destruct pre as [|y pre]; cbn in E.
      * injection E as -> _. congruence.
      * destruct pre; discriminate.
  - inversion Hfront as [|? ? Hf Hfront']; subst.
    destruct pre as [|x pre]; cbn in E.
    + injection E as -> _. congruence.
    + injection E as -> E. destruct (IH pre E He Hfront' Hb) as (-> & -> & ->).
      auto.
Qed.

Section Run.

Variable w : World.
Variable cfg : Config.

Lemma launchInstanceLoop_S (fuel : nat) (s : State HealthStatus) :
  launchInstanceLoop w cfg (S fuel) s =
  match loopBody w cfg s with
  | (Break, s') => (Returned, s')
  | (Continue, s') => launchInstanceLoop w cfg fuel s'
  end.
Proof.
  cbn [launchInstanceLoop]. unfold mbind, M_bind.
  destruct (loopBody w cfg s) as [[|] s']; reflexivity.
Qed.

(** The events of a run: while the loop is going no launch has
    succeeded; when it has returned, the successful launch and the line
    that logs its result are the last two events. *)
Lemma launchInstanceLoop_shape (fuel : nat) (s : State HealthStatus) :
  ∃ new, trace (snd (launchInstanceLoop w cfg fuel s)) = trace s ++ new ∧
    Forall (λ e, is_check_error_log e = false) new ∧
    match fst (launchInstanceLoop w cfg fuel s) with
    | Running => Forall (λ e, launch_ok w e = false) new
    | Returned =>
        ∃ front req resp result,
          new = front ++ [EvDo req (inl resp);
                          EvLog "Instance launch result: %v\n" [ArgAny result]] ∧
          launch_ok w (EvDo req (inl resp)) = true ∧
          Decode_any w (RespBody resp) = (result, None) ∧
          Forall (λ e, launch_ok w e = false) front
    end.
Proof.
  revert s. induction fuel as [|fuel IH]; intros s.
  - exists []. cbn. rewrite app_nil_r. auto.
  - rewrite launchInstanceLoop_S.
    destruct (loopBody_shape w cfg s) as (new1 & E1 & Hlog1 & H1).
    destruct (loopBody w cfg s) as [[|] s1]; cbn [fst snd] in *.
    + destruct (IH s1) as (new2 & E2 & Hlog2 & H2).
      exists (new1 ++ new2). rewrite E2, E1, app_assoc. split; [reflexivity|].
      split; [apply Forall_app; auto|].
      destruct (fst (launchInstanceLoop w cfg fuel s1)).
      * destruct H2 as (front & req & resp & result & -> & Hok & Hdec & Hfront).
        exists (new1 ++ front), req, resp, result.
        rewrite app_assoc. repeat split; auto. apply Forall_app; auto.
      * apply Forall_app; auto.
    + exists new1. split; [exact E1|]. split; [exact Hlog1|].
      destruct H1 as (front & req & resp & result & -> & Hok & Hdec & Hfront).
      exists front, req, resp, result. repeat split; auto.
      eapply Forall_impl; [exact Hfront|]. intros e. apply not_launch_not_ok.
Qed.

(** Once the loop has returned, more passes change nothing. *)
Lemma launchInstanceLoop_returned (fuel more : nat) (s : State HealthStatus) :
  fst (launchInstanceLoop w cfg fuel s) = Returned →
  launchInstanceLoop w cfg (fuel + more) s = launchInstanceLoop w cfg fuel s.
Proof.
  revert s. induction fuel as [|fuel IH]; intros s.
  - cbn. discriminate.
  - replace (S fuel + more)%nat with (S (fuel + more)) by lia.
    rewrite !launchInstanceLoop_S.
    destruct (loopBody w cfg s) as [[|] s1]; [apply IH|reflexivity].
Qed.

End Run.

(** ** The second program makes the calls of the first *)

Section Simulation.

Variable w : World.
Variable cfg : Config.

Lemma Plain_loopBody_sim (s : State HealthStatus) :
  Plain.loopBody w (plain_config cfg) (forget s) =
  (fst (loopBody w cfg s), forget (snd (loopBody w cfg s))).
Proof.
  unfold Plain.loopBody, loopBody, Plain.getInstanceTypes, getInstanceTypes,
    Plain.launchInstance, launchInstance, Plain.checkInstanceAvailability,
    checkInstanceAvailability, log_Println, log_Printf, time_Sleep, client_Do,
    store, emit, forget, mbind, mret, M_bind, M_ret.
  cbn -[baseUrl].
  destruct (net_Do w _ _) as [resp|err]; [|reflexivity].
  destruct (Decode_InstanceTypes w (RespBody resp)) as [it [e|]]; [reflexivity|].
  cbn -[baseUrl].
  destruct (Data it !! instanceTypeName cfg) as [data|]; [|reflexivity].
  destruct (RegionsWithCapacityAvailable data) as [|r0 rest]; [reflexivity|].
  destruct (decide (Name r0 ≠ "")); [|reflexivity].
  cbn -[baseUrl].
  destruct (net_Do w _ _) as [resp2|err2]; [|reflexivity].
  destruct (Decode_any w (RespBody resp2)) as [r [e|]]; reflexivity.
Qed.

Lemma Plain_launchInstanceLoop_sim (fuel : nat) (s : State HealthStatus) :
  Plain.launchInstanceLoop w (plain_config cfg) fuel (forget s) =
  (fst (launchInstanceLoop w cfg fuel s),
   forget (snd (launchInstanceLoop w cfg fuel s))).
Proof.
  revert s. induction fuel as [|fuel IH]; intros s; [reflexivity|].
  rewrite launchInstanceLoop_S. cbn [Plain.launchInstanceLoop].
  unfold mbind, M_bind. rewrite Plain_loopBody_sim.
  destruct (loopBody w cfg s) as [[|] s1]; cbn [fst snd]; [apply IH|reflexivity].
Qed.

End Simulation.

Lemma plain_config_with_port (pcfg : Plain.Config) (p : Z) :
  plain_config (with_port pcfg p) = pcfg.
Proof. destruct pcfg; reflexivity. Qed.

Lemma forget_plain (s : State unit) : forget s = s.
Proof. destruct s as [[] tr]; reflexivity. Qed.

(** A run of the second program is the run of the first from the same
    trace, whatever [port] and [healthStatus] are. *)
Lemma Plain_run_as_Health (w : World) (pcfg : Plain.Config) (fuel : nat)
    (s : State unit) :
  let hs := mkState {| Status := "running"; Result := nil_any; Error := "" |}
              (trace s) in
  let r := launchInstanceLoop w (with_port pcfg 5000) fuel hs in
  Plain.launchInstanceLoop w pcfg fuel s = (fst r, forget (snd r)) ∧
  since s (forget (snd r)) = since hs (snd r).
Proof.
  cbn zeta. split; [|reflexivity].
  rewrite <- (Plain_launchInstanceLoop_sim w (with_port pcfg 5000) fuel).
  rewrite plain_config_with_port. unfold forget at 1. cbn [trace].
  rewrite <- (forget_plain s) at 1. reflexivity.
Qed.

(** ** C1: one successful launch, and nothing after it *)

Lemma shape_one_launch (w : World) (outcome : Outcome) (new : list Event) :
  match outcome with
  | Running => Forall (λ e, launch_ok w e = false) new
  | Returned =>
      ∃ front req resp result,
        new = front ++ [EvDo req (inl resp);
                        EvLog "Instance launch result: %v\n" [ArgAny result]] ∧
        launch_ok w (EvDo req (inl resp)) = true ∧
        Decode_any w (RespBody resp) = (result, None) ∧
        Forall (λ e, launch_ok w e = false) front
  end →
  ∀ pre e post, new = pre ++ e :: post → launch_ok w e = true →
    outcome = Returned ∧
    Forall (λ x, launch_ok w x = false) pre ∧
    Forall (λ x, is_call x = false) post.
Proof.
  intros H pre e post E He. destruct outcome.
  - destruct H as (front & req & resp & result & -> & Hok & _ & Hfront).
    destruct (split_at_the_launch (launch_ok w) _ _ _ _ _ _ E He Hfront eq_refl)
      as (-> & -> & ->).
    repeat split; auto.
  - subst new. apply Forall_app in H as [_ H]. inversion H; congruence.
Qed.

(** [launchInstance] returns a nil error exactly when the event it adds
    is a successful launch. *)
Lemma launchInstance_ok_iff (w : World) (cfg : Config) (regionName : string)
    (s : State HealthStatus) :
  snd (fst (launchInstance w cfg regionName s)) = None ↔
  Exists (λ e, launch_ok w e = true)
    (since s (snd (launchInstance w cfg regionName s))).
Proof.
  rewrite launchInstance_eq. cbn zeta. cbn [fst snd].
  erewrite since_app by reflexivity.
  rewrite Exists_cons, Exists_nil.
  destruct (net_Do w _ _) as [resp|err]; cbn [launch_ok].
  - destruct (Decode_any w (RespBody resp)) as [r [e|]]; cbn [snd].
    + rewrite andb_false_r. split; [discriminate|].
      intros [H|[]]. discriminate.
    + split; [|reflexivity]. intros _. left. reflexivity.
  - cbn [snd]. split; [discriminate|]. intros [H|[]]. discriminate.
Qed.

Example capacity_seen_twice_one_success :
  let r := launchInstanceLoop world_retry (fst (init None ∅)) 5 main_start in
  fst r = Returned ∧
  length (filter (λ e, is_launch e = true) (since main_start (snd r))) = 2%nat ∧
  length (filter (λ e, launch_ok world_retry e = true) (since main_start (snd r)))
  = 1%nat.
Proof. vm_compute. auto. Qed.

(** C1 — [launchInstance] returns without error exactly when the call
    it makes is a successful launch.  In every run of the control loop,
    of either program, a successful launch is the only one of the run:
    the loop has returned, no successful launch comes before it, no call
    to the provider (fetch or launch) comes after it, and giving the
    loop more passes adds nothing. *)
Theorem C1_one_successful_launch (w : World) (fuel : nat) :
  (∀ (cfg : Config) (regionName : string) (s : State HealthStatus),
     snd (fst (launchInstance w cfg regionName s)) = None ↔
     Exists (λ e, launch_ok w e = true)
       (since s (snd (launchInstance w cfg regionName s)))) ∧
  (∀ (cfg : Config) (s : State HealthStatus),
     let r := launchInstanceLoop w cfg fuel s in
     trace (snd r) = trace s ++ since s (snd r) ∧
     (∀ pre e post,
        since s (snd r) = pre ++ e :: post → launch_ok w e = true →
        fst r = Returned ∧
        Forall (λ x, launch_ok w x = false) pre ∧
        Forall (λ x, is_call x = false) post) ∧
     (fst r = Returned →
      ∀ more, launchInstanceLoop w cfg (fuel + more) s = r)) ∧
  (∀ (cfg : Plain.Config) (s : State unit),
     let r := Plain.launchInstanceLoop w cfg fuel s in
     trace (snd r) = trace s ++ since s (snd r) ∧
     (∀ pre e post,
        since s (snd r) = pre ++ e :: post → launch_ok w e = true →
        fst r = Returned ∧
        Forall (λ x, launch_ok w x = false) pre ∧
        Forall (λ x, is_call x = false) post) ∧
     (fst r = Returned →
      ∀ more, Plain.launchInstanceLoop w cfg (fuel + more) s = r)).
Proof.
  assert (Hhealth : ∀ (cfg : Config) (s : State HealthStatus),
     let r := launchInstanceLoop w cfg fuel s in
     trace (snd r) = trace s ++ since s (snd r) ∧
     (∀ pre e post,
        since s (snd r) = pre ++ e :: post → launch_ok w e = true →
        fst r = Returned ∧
        Forall (λ x, launch_ok w x = false) pre ∧
        Forall (λ x, is_call x = false) post) ∧
     (fst r = Returned →
      ∀ more, launchInstanceLoop w cfg (fuel + more) s = r)).
  { intros cfg s r. subst r.
    destruct (launchInstanceLoop_shape w cfg fuel s) as (new & E & _ & H).
    rewrite (since_app _ _ _ E). split; [exact E|]. split.
    - apply shape_one_launch. exact H.
    - intros Hret more. apply launchInstanceLoop_returned. exact Hret. }
  split; [apply launchInstance_ok_iff|]. split; [exact Hhealth|].
  intros pcfg s.
  destruct (Plain_run_as_Health w pcfg fuel s) as [Erun Esince].
  cbn zeta in Erun, Esince. cbn zeta. rewrite Erun. cbn [fst snd].
  set (hs := mkState {| Status := "running"; Result := nil_any; Error := "" |}
               (trace s)) in *.
  destruct (Hhealth (with_port pcfg 5000) hs) as (E & Hone & Hstay).
  rewrite Esince. split; [exact E|]. split; [exact Hone|].
  intros Hret more.
  destruct (Plain_run_as_Health w pcfg (fuel + more) s) as [Erun' _].
  cbn zeta in Erun'. fold hs in Erun'. rewrite Erun', (Hstay Hret more).
  reflexivity.
Qed.

(** ** C2, C3, C9: which region is chosen, and when none is *)

Section Choice.

Variable w : World.
Variable cfg : Config.

Lemma getInstanceTypes_state (s : State HealthStatus) r s2 :
  getInstanceTypes w cfg s = (r, s2) →
  s2 = mkState (globals s)
         (trace s ++
          [EvLog "Checking availability for instance type %s..."
             [ArgString (instanceTypeName cfg)];
           EvDo (fetch_request (apiKey cfg))
             (net_Do w
                (trace s ++ [EvLog "Checking availability for instance type %s..."
                               [ArgString (instanceTypeName cfg)]])
                (fetch_request (apiKey cfg)))]).
Proof.
  rewrite getInstanceTypes_eq. cbn zeta. intros E. injection E as _ <-.
  rewrite <- app_assoc. reflexivity.
Qed.

(** Every pass starts by polling: the separator line, the line that
    announces the check, the call to the instance-types endpoint. *)
Lemma loopBody_starts_with_fetch (s : State HealthStatus) :
  ∃ res rest,
    since s (snd (loopBody w cfg s)) =
    EvLog "========================================" []
    :: EvLog "Checking availability for instance type %s..."
         [ArgString (instanceTypeName cfg)]
    :: EvDo (fetch_request (apiKey cfg)) res :: rest.
Proof.
  rewrite loopBody_eq. cbn zeta.
  destruct (getInstanceTypes w cfg _) as [[it err] s2] eqn:Hget.
  apply getInstanceTypes_state in Hget. cbn [globals trace] in Hget. subst s2.
  destruct err as [err|].
  { eexists _, _. apply since_app. cbn [snd trace].
    rewrite <- !app_assoc. cbn [app]. reflexivity. }
  destruct (checkInstanceAvailability cfg it) as [region [e|]].
  { eexists _, _. apply since_app. cbn [snd trace].
    rewrite <- !app_assoc. cbn [app]. reflexivity. }
  destruct (decide (region ≠ "")).
  - rewrite launchInstance_eq. cbn zeta.
    destruct (net_Do w _ (launch_request _ _ _ _)) as [resp|err].
    2:{ eexists _, _. apply since_app. cbn [snd trace].
        rewrite <- !app_assoc. cbn [app]. reflexivity. }
    destruct (Decode_any w _) as [r [e|]].
    + eexists _, _. apply since_app. cbn [snd trace].
      rewrite <- !app_assoc. cbn [app]. reflexivity.
    + eexists _, _. apply since_app. cbn [snd trace].
      rewrite <- !app_assoc. cbn [app]. reflexivity.
  - eexists _, _. apply since_app. cbn [snd trace].
    rewrite <- !app_assoc. cbn [app]. reflexivity.
Qed.

(** The pass when the check names no region. *)
Lemma loopBody_no_region (catalog : InstanceTypes) (s s2 : State HealthStatus) :
  getInstanceTypes w cfg (snd (log_Println "========================================" s))
  = ((catalog, None), s2) →
  checkInstanceAvailability cfg catalog = ("", None) →
  loopBody w cfg s =
    (Continue,
     mkState (globals s)
       (trace s2 ++
        [EvLog "No available regions found for %s. Checking again in %d seconds.\n"
           [ArgString (instanceTypeName cfg); ArgInt (checkInterval cfg)];
         EvSleep (seconds (checkInterval cfg))])) ∧
  Forall (λ e, is_launch e = false) (since s (snd (loopBody w cfg s))).
Proof.
  intros Hget Hchk. assert (Hs2 := getInstanceTypes_state _ _ _ Hget).
  cbn [log_Println emit snd globals trace] in Hs2, Hget.
  assert (E : loopBody w cfg s =
    (Continue,
     mkState (globals s)
       (trace s2 ++
        [EvLog "No available regions found for %s. Checking again in %d seconds.\n"
           [ArgString (instanceTypeName cfg); ArgInt (checkInterval cfg)];
         EvSleep (seconds (checkInterval cfg))]))).
  { rewrite loopBody_eq. cbn zeta. rewrite Hget, Hchk.
    destruct (decide ("" ≠ "")) as [Hne|_]; [congruence|].
    rewrite Hs2. reflexivity. }
  split; [exact E|].
  rewrite E. cbn [snd]. erewrite since_app.
  2:{ cbn [trace]. rewrite Hs2. cbn [trace]. rewrite <- !app_assoc. reflexivity. }
  repeat constructor.
Qed.

End Choice.

(** C2 — when the configured instance type maps to a non-empty region
    list, [checkInstanceAvailability] (in both programs) returns the
    name of the first region of the list, whatever follows it; and when
    that name is not empty, the launch request of the pass is the one
    built for that region. *)
Theorem C2_first_region (cfg : Config) (catalog : InstanceTypes)
    (data : InstanceTypeData) (first : Region) (others : list Region) :
  Data catalog !! instanceTypeName cfg = Some data →
  RegionsWithCapacityAvailable data = first :: others →
  checkInstanceAvailability cfg catalog = (Name first, None) ∧
  Plain.checkInstanceAvailability (plain_config cfg) catalog = (Name first, None) ∧
  ∀ (w : World) (s s2 : State HealthStatus),
    getInstanceTypes w cfg (snd (log_Println "========================================" s))
    = ((catalog, None), s2) →
    Name first ≠ "" →
    ∃ res rest,
      since s2 (snd (loopBody w cfg s)) =
      EvDo (launch_request (apiKey cfg) (instanceTypeName cfg) (sshKeyName cfg)
              (Name first)) res :: rest.
Proof.
  intros Hdata Hregions.
  assert (Hchk : checkInstanceAvailability cfg catalog = (Name first, None)).
  { unfold checkInstanceAvailability. rewrite Hdata, Hregions. reflexivity. }
  split; [exact Hchk|]. split.
  { unfold Plain.checkInstanceAvailability. cbn [plain_config Plain.instanceTypeName].
    rewrite Hdata, Hregions. reflexivity. }
  intros w s s2 Hget Hname.
  rewrite loopBody_eq. cbn zeta.
  cbn [log_Println emit snd] in Hget. rewrite Hget, Hchk.
  destruct (decide (Name first ≠ "")) as [_|Hno]; [|contradiction].
  rewrite launchInstance_eq. cbn zeta.
  destruct (net_Do w _ _) as [resp|err].
  2:{ eexists _, _. apply since_app. cbn [snd trace].
      rewrite <- !app_assoc. cbn [app]. reflexivity. }
  destruct (Decode_any w _) as [r [e|]].
  - eexists _, _. apply since_app. cbn [snd trace].
    rewrite <- !app_assoc. cbn [app]. reflexivity.
  - eexists _, _. apply since_app. cbn [snd trace].
    rewrite <- !app_assoc. cbn [app]. reflexivity.
Qed.

Lemma C2_first_region_witness :
  checkInstanceAvailability cfg_default catalog_two = ("us-east-1", None) ∧
  Plain.checkInstanceAvailability (plain_config cfg_default) catalog_two
  = ("us-east-1", None) ∧
  ∀ (w : World) (s s2 : State HealthStatus),
    getInstanceTypes w cfg_default
      (snd (log_Println "========================================" s))
    = ((catalog_two, None), s2) →
    "us-east-1" ≠ "" →
    ∃ res rest,
      since s2 (snd (loopBody w cfg_default s)) =
      EvDo (launch_request "" "gpu_1x_a6000" "my-key" "us-east-1") res :: rest.
Proof.
  apply (C2_first_region cfg_default catalog_two
           {| RegionsWithCapacityAvailable :=
                [ {| Name := "us-east-1" |}; {| Name := "us-west-2" |} ] |}
           {| Name := "us-east-1" |} [ {| Name := "us-west-2" |} ]).
  - vm_compute. reflexivity.
  - reflexivity.
Defined.

(** The scenario of C2, run: the launch request names [us-east-1]. *)
Example scenario_two_regions :
  filter (λ e, is_launch e = true)
    (trace (snd (launchInstanceLoop (world_serving catalog_two) cfg_default 1
                   main_start)))
  = [EvDo (launch_request "" "gpu_1x_a6000" "my-key" "us-east-1")
       (inl {| StatusCode := 200; RespBody := "launched" |})].
Proof. vm_compute. reflexivity. Qed.

(** Whatever happens in it, a run of one pass or more starts by
    polling. *)
Lemma launchInstanceLoop_polls_first (w : World) (cfg : Config) (fuel : nat)
    (s : State HealthStatus) :
  ∃ res rest,
    trace (snd (launchInstanceLoop w cfg (S fuel) s)) =
    trace s ++
    EvLog "========================================" []
    :: EvLog "Checking availability for instance type %s..."
         [ArgString (instanceTypeName cfg)]
    :: EvDo (fetch_request (apiKey cfg)) res :: rest.
Proof.
  rewrite launchInstanceLoop_S.
  destruct (loopBody_starts_with_fetch w cfg s) as (res & rest & Hstart).
  destruct (loopBody_shape w cfg s) as (new & E & _).
  rewrite (since_app _ _ _ E) in Hstart. subst new.
  destruct (loopBody w cfg s) as [[|] s1]; cbn [fst snd] in *.
  - destruct (launchInstanceLoop_shape w cfg fuel s1) as (new2 & E2 & _).
    exists res, (rest ++ new2). rewrite E2, E, <- app_assoc. reflexivity.
  - exists res, rest. exact E.
Qed.

(** C3 — when the catalog lacks the configured instance type, or maps it
    to an empty region list, [checkInstanceAvailability] returns the
    empty region name; a pass whose fetch returned that catalog makes no
    launch call, leaves [healthStatus] as it was and ends by sleeping
    the poll interval; the loop is then still running, and with a pass
    more it polls again: the next events of the run are those of a
    fetch. *)
Theorem C3_no_capacity (cfg : Config) (catalog : InstanceTypes) :
  (Data catalog !! instanceTypeName cfg = None ∨
   ∃ data, Data catalog !! instanceTypeName cfg = Some data ∧
           RegionsWithCapacityAvailable data = []) →
  checkInstanceAvailability cfg catalog = ("", None) ∧
  ∀ (w : World) (s s2 : State HealthStatus),
    getInstanceTypes w cfg (snd (log_Println "========================================" s))
    = ((catalog, None), s2) →
    let s' :=
      mkState (globals s)
        (trace s2 ++
         [EvLog "No available regions found for %s. Checking again in %d seconds.\n"
            [ArgString (instanceTypeName cfg); ArgInt (checkInterval cfg)];
          EvSleep (seconds (checkInterval cfg))]) in
    loopBody w cfg s = (Continue, s') ∧
    Forall (λ e, is_launch e = false) (since s s') ∧
    launchInstanceLoop w cfg 0 s' = (Running, s') ∧
    launchInstanceLoop w cfg 1 s = (Running, s') ∧
    (∀ fuel, launchInstanceLoop w cfg (S fuel) s = launchInstanceLoop w cfg fuel s') ∧
    (∀ fuel, ∃ res rest,
       trace (snd (launchInstanceLoop w cfg (S (S fuel)) s)) =
       trace s' ++
       EvLog "========================================" []
       :: EvLog "Checking availability for instance type %s..."
            [ArgString (instanceTypeName cfg)]
       :: EvDo (fetch_request (apiKey cfg)) res :: rest) ∧
    ∃ res rest,
      since s' (snd (loopBody w cfg s')) =
      EvLog "========================================" []
      :: EvLog "Checking availability for instance type %s..."
           [ArgString (instanceTypeName cfg)]
      :: EvDo (fetch_request (apiKey cfg)) res :: rest.
Proof.
  intros Hcat.
  assert (Hchk : checkInstanceAvailability cfg catalog = ("", None)).
  { unfold checkInstanceAvailability.
    destruct Hcat as [-> | (data & -> & ->)]; reflexivity. }
  split; [exact Hchk|].
  intros w s s2 Hget s'.
  destruct (loopBody_no_region w cfg catalog s s2 Hget Hchk) as [E Hnone].
  fold s' in E. rewrite E in Hnone. cbn [snd] in Hnone.
  assert (Hstep : ∀ fuel, launchInstanceLoop w cfg (S fuel) s
                          = launchInstanceLoop w cfg fuel s').
  { intros fuel. rewrite launchInstanceLoop_S, E. reflexivity. }
  split; [exact E|]. split; [exact Hnone|]. split; [reflexivity|].
  split; [rewrite Hstep; reflexivity|]. split; [exact Hstep|]. split.
  - intros fuel. rewrite Hstep. apply launchInstanceLoop_polls_first.
  - apply loopBody_starts_with_fetch.
Qed.

Lemma C3_no_capacity_witness :
  checkInstanceAvailability cfg_default catalog_none = ("", None) ∧
  checkInstanceAvailability cfg_default catalog_other = ("", None) ∧
  fst (loopBody (world_serving catalog_none) cfg_default main_start) = Continue ∧
  last (trace (snd (loopBody (world_serving catalog_none) cfg_default main_start)))
  = Some (EvSleep 30000000000) ∧
  since main_start
    (snd (launchInstanceLoop (world_serving catalog_other) cfg_default 2 main_start))
  = [EvLog "========================================" [];
     EvLog "Checking availability for instance type %s..." [ArgString "gpu_1x_a6000"];
     EvDo (fetch_request "") (inl {| StatusCode := 200; RespBody := "catalog" |});
     EvLog "No available regions found for %s. Checking again in %d seconds.\n"
       [ArgString "gpu_1x_a6000"; ArgInt 30];
     EvSleep 30000000000;
     EvLog "========================================" [];
     EvLog "Checking availability for instance type %s..." [ArgString "gpu_1x_a6000"];
     EvDo (fetch_request "") (inl {| StatusCode := 200; RespBody := "catalog" |});
     EvLog "No available regions found for %s. Checking again in %d seconds.\n"
       [ArgString "gpu_1x_a6000"; ArgInt 30];
     EvSleep 30000000000].
Proof.
  pose proof (C3_no_capacity cfg_default catalog_none) as Hnone.
  pose proof (C3_no_capacity cfg_default catalog_other) as Hother.
  assert (H1 : Data catalog_none !! instanceTypeName cfg_default = None ∨
     ∃ data, Data catalog_none !! instanceTypeName cfg_default = Some data ∧
             RegionsWithCapacityAvailable data = []).
  { right. exists {| RegionsWithCapacityAvailable := [] |}.
    split; [vm_compute; reflexivity | reflexivity]. }
  assert (H2 : Data catalog_other !! instanceTypeName cfg_default = None ∨
     ∃ data, Data catalog_other !! instanceTypeName cfg_default = Some data ∧
             RegionsWithCapacityAvailable data = []).
  { left. vm_compute. reflexivity. }
  destruct (Hnone H1) as [Ha Hrun]. destruct (Hother H2) as [Hb Hrun'].
  split; [exact Ha|]. split; [exact Hb|].
  destruct (Hrun (world_serving catalog_none) main_start
              (snd (getInstanceTypes (world_serving catalog_none) cfg_default
                      (snd (log_Println "========================================"
                              main_start)))))
    as (E & _).
  { vm_compute. reflexivity. }
  rewrite E. split; [reflexivity|]. split; [vm_compute; reflexivity|].
  destruct (Hrun' (world_serving catalog_other) main_start
              (snd (getInstanceTypes (world_serving catalog_other) cfg_default
                      (snd (log_Println "========================================"
                              main_start)))))
    as (_ & _ & _ & _ & Hstep & _).
  { vm_compute. reflexivity. }
  rewrite (Hstep 1%nat). vm_compute. reflexivity.
Defined.

(** C9 — the empty string stands for no availability: when the first
    region of a non-empty list has the empty name, the pass makes no
    launch call and ends by sleeping the poll interval, in the very
    state a pass with no capacity ends in. *)
Theorem C9_empty_name_means_none (w : World) (cfg : Config)
    (catalog : InstanceTypes) (data : InstanceTypeData) (others : list Region)
    (s s2 : State HealthStatus) :
  Data catalog !! instanceTypeName cfg = Some data →
  RegionsWithCapacityAvailable data = {| Name := "" |} :: others →
  getInstanceTypes w cfg (snd (log_Println "========================================" s))
  = ((catalog, None), s2) →
  loopBody w cfg s =
    (Continue,
     mkState (globals s)
       (trace s2 ++
        [EvLog "No available regions found for %s. Checking again in %d seconds.\n"
           [ArgString (instanceTypeName cfg); ArgInt (checkInterval cfg)];
         EvSleep (seconds (checkInterval cfg))])) ∧
  Forall (λ e, is_launch e = false) (since s (snd (loopBody w cfg s))).
Proof.
  intros Hdata Hregions Hget.
  apply (loopBody_no_region w cfg catalog s s2 Hget).
  unfold checkInstanceAvailability. rewrite Hdata, Hregions. reflexivity.
Qed.

Lemma C9_empty_name_means_none_witness :
  RegionsWithCapacityAvailable
    {| RegionsWithCapacityAvailable := [ {| Name := "" |}; {| Name := "us-west-2" |} ] |}
  ≠ [] ∧
  fst (loopBody (world_serving catalog_unnamed) cfg_default main_start) = Continue ∧
  Forall (λ e, is_launch e = false)
    (since main_start
       (snd (loopBody (world_serving catalog_unnamed) cfg_default main_start))) ∧
  loopBody (world_serving catalog_unnamed) cfg_default main_start
  = loopBody (world_serving catalog_none) cfg_default main_start.
Proof.
  split; [discriminate|].
  destruct (C9_empty_name_means_none (world_serving catalog_unnamed) cfg_default
              catalog_unnamed
              {| RegionsWithCapacityAvailable :=
                   [ {| Name := "" |}; {| Name := "us-west-2" |} ] |}
              [ {| Name := "us-west-2" |} ] main_start
              (snd (getInstanceTypes (world_serving catalog_unnamed) cfg_default
                      (snd (log_Println "========================================"
                              main_start)))))
    as [E Hnone].
  - vm_compute. reflexivity.
  - reflexivity.
  - vm_compute. reflexivity.
  - split; [rewrite E; reflexivity|]. split; [exact Hnone|].
    vm_compute. reflexivity.
Defined.

(** ** C4, C8: failures are retried, and the check cannot fail *)

(** C4 — a pass in which the fetch fails, or the launch fails, logs the
    error, sleeps the error-retry interval and ends in [continue]: the
    loop is still running after it, and with a pass more it polls again,
    the next events of the run being those of a fetch.  A pass ends in
    [break], and the loop returns, only when [launchInstance] has
    returned without error: a run has returned exactly when it holds a
    successful launch. *)
Theorem C4_failures_are_retried (w : World) (cfg : Config)
    (s : State HealthStatus) :
  let s1 := snd (log_Println "========================================" s) in
  (∀ catalog err s2,
     getInstanceTypes w cfg s1 = ((catalog, Some err), s2) →
     ∃ status,
       let s' :=
         mkState status
           (trace s2 ++
            [EvLog "Error fetching instance types: %v. Retrying in %d seconds.\n"
               [ArgError err; ArgInt (errorWait cfg)];
             EvSleep (seconds (errorWait cfg))]) in
       loopBody w cfg s = (Continue, s') ∧
       launchInstanceLoop w cfg 1 s = (Running, s') ∧
       ∀ fuel, ∃ res rest,
         trace (snd (launchInstanceLoop w cfg (S (S fuel)) s)) =
         trace s' ++
         EvLog "========================================" []
         :: EvLog "Checking availability for instance type %s..."
              [ArgString (instanceTypeName cfg)]
         :: EvDo (fetch_request (apiKey cfg)) res :: rest) ∧
  (∀ catalog s2 regionName result err s3,
     getInstanceTypes w cfg s1 = ((catalog, None), s2) →
     checkInstanceAvailability cfg catalog = (regionName, None) →
     regionName ≠ "" →
     launchInstance w cfg regionName s2 = ((result, Some err), s3) →
     ∃ status,
       let s' :=
         mkState status
           (trace s3 ++
            [EvLog "Error launching instance: %v. Retrying in %d seconds.\n"
               [ArgError err; ArgInt (errorWait cfg)];
             EvSleep (seconds (errorWait cfg))]) in
       loopBody w cfg s = (Continue, s') ∧
       launchInstanceLoop w cfg 1 s = (Running, s') ∧
       ∀ fuel, ∃ res rest,
         trace (snd (launchInstanceLoop w cfg (S (S fuel)) s)) =
         trace s' ++
         EvLog "========================================" []
         :: EvLog "Checking availability for instance type %s..."
              [ArgString (instanceTypeName cfg)]
         :: EvDo (fetch_request (apiKey cfg)) res :: rest) ∧
  (fst (loopBody w cfg s) = Continue →
   launchInstanceLoop w cfg 1 s = (Running, snd (loopBody w cfg s)) ∧
   (∀ fuel, launchInstanceLoop w cfg (S fuel) s
            = launchInstanceLoop w cfg fuel (snd (loopBody w cfg s))) ∧
   ∃ res rest,
     since (snd (loopBody w cfg s))
       (snd (loopBody w cfg (snd (loopBody w cfg s)))) =
     EvLog "========================================" []
     :: EvLog "Checking availability for instance type %s..."
          [ArgString (instanceTypeName cfg)]
     :: EvDo (fetch_request (apiKey cfg)) res :: rest) ∧
  (fst (loopBody w cfg s) = Break →
   (∀ fuel, launchInstanceLoop w cfg (S fuel) s = (Returned, snd (loopBody w cfg s))) ∧
   ∃ catalog s2 regionName result s3,
     getInstanceTypes w cfg s1 = ((catalog, None), s2) ∧
     checkInstanceAvailability cfg catalog = (regionName, None) ∧
     regionName ≠ "" ∧
     launchInstance w cfg regionName s2 = ((result, None), s3)) ∧
  (∀ fuel,
     fst (launchInstanceLoop w cfg fuel s) = Returned ↔
     Exists (λ e, launch_ok w e = true)
       (since s (snd (launchInstanceLoop w cfg fuel s)))).
Proof.
  cbn zeta. cbn [log_Println emit snd].
  assert (Hstep : ∀ s', loopBody w cfg s = (Continue, s') →
    launchInstanceLoop w cfg 1 s = (Running, s') ∧
    ∀ fuel, ∃ res rest,
      trace (snd (launchInstanceLoop w cfg (S (S fuel)) s)) =
      trace s' ++
      EvLog "========================================" []
      :: EvLog "Checking availability for instance type %s..."
           [ArgString (instanceTypeName cfg)]
      :: EvDo (fetch_request (apiKey cfg)) res :: rest).
  { intros s' E. split.
    - rewrite launchInstanceLoop_S, E. reflexivity.
    - intros fuel. rewrite launchInstanceLoop_S, E.
      apply launchInstanceLoop_polls_first. }
  split; [|split; [|split; [|split]]].
  - intros catalog err s2 Hget. eexists.
    assert (E : loopBody w cfg s =
      (Continue,
       mkState {| Status := "error"; Result := nil_any; Error := error_Error err |}
         (trace s2 ++
          [EvLog "Error fetching instance types: %v. Retrying in %d seconds.\n"
             [ArgError err; ArgInt (errorWait cfg)];
           EvSleep (seconds (errorWait cfg))]))).
    { rewrite loopBody_eq. cbn zeta. rewrite Hget. reflexivity. }
    split; [exact E|]. apply Hstep. exact E.
  - intros catalog s2 region result err s3 Hget Hchk Hne Hlaunch. eexists.
    assert (E : loopBody w cfg s =
      (Continue,
       mkState {| Status := "error"; Result := nil_any; Error := error_Error err |}
         (trace s3 ++
          [EvLog "Error launching instance: %v. Retrying in %d seconds.\n"
             [ArgError err; ArgInt (errorWait cfg)];
           EvSleep (seconds (errorWait cfg))]))).
    { rewrite loopBody_eq. cbn zeta. rewrite Hget, Hchk.
      destruct (decide (region ≠ "")) as [_|Hno]; [|contradiction].
      rewrite Hlaunch. reflexivity. }
    split; [exact E|]. apply Hstep. exact E.
  - intros Hc. split; [|split].
    + rewrite launchInstanceLoop_S.
      destruct (loopBody w cfg s) as [[|] s']; [reflexivity|discriminate].
    + intros fuel. rewrite launchInstanceLoop_S.
      destruct (loopBody w cfg s) as [[|] s']; [reflexivity|discriminate].
    + apply loopBody_starts_with_fetch.
  - intros Hb. split.
    + intros fuel. rewrite launchInstanceLoop_S.
      destruct (loopBody w cfg s) as [[|] s']; [discriminate|reflexivity].
    + revert Hb. rewrite loopBody_eq. cbn zeta.
      destruct (getInstanceTypes w cfg _) as [[catalog [err|]] s2]; [discriminate|].
      destruct (checkInstanceAvailability cfg catalog) as [region [err|]] eqn:Hchk;
        [discriminate|].
      destruct (decide (region ≠ "")) as [Hne|_]; [|discriminate].
      destruct (launchInstance w cfg region s2) as [[result [err|]] s3] eqn:Hlaunch;
        [discriminate|].
      intros _. exists catalog, s2, region, result, s3. auto.
  - intros fuel.
    destruct (launchInstanceLoop_shape w cfg fuel s) as (new & E & _ & H).
    rewrite (since_app _ _ _ E). split.
    + intros Hret. rewrite Hret in H.
      destruct H as (front & req & resp & result & -> & Hok & _).
      apply Exists_app. right. constructor. exact Hok.
    + intros Hex. destruct (fst (launchInstanceLoop w cfg fuel s)); [reflexivity|].
      exfalso. apply Exists_exists in Hex as (e & Hin & He).
      rewrite Forall_forall in H. rewrite (H e Hin) in He. discriminate.
Qed.

Lemma C4_failures_are_retried_witness :
  fst (loopBody world_down cfg_default main_start) = Continue ∧
  last (trace (snd (loopBody world_down cfg_default main_start)))
  = Some (EvSleep 10000000000) ∧
  fst (loopBody world_launch_fails cfg_default main_start) = Continue ∧
  last (trace (snd (loopBody world_launch_fails cfg_default main_start)))
  = Some (EvSleep 10000000000) ∧
  fst (launchInstanceLoop world_down cfg_default 50 main_start) = Running ∧
  length (filter (λ e, is_fetch e = true)
            (since main_start
               (snd (launchInstanceLoop world_down cfg_default 50 main_start))))
  = 50%nat ∧
  since main_start
    (snd (launchInstanceLoop world_launch_fails cfg_default 2 main_start))
  = [EvLog "========================================" [];
     EvLog "Checking availability for instance type %s..." [ArgString "gpu_1x_a6000"];
     EvDo (fetch_request "") (inl {| StatusCode := 200; RespBody := "catalog" |});
     EvDo (launch_request "" "gpu_1x_a6000" "my-key" "us-east-1")
       (inr (errors_New "connection reset"));
     EvLog "Error launching instance: %v. Retrying in %d seconds.\n"
       [ArgError (errors_New "connection reset"); ArgInt 10];
     EvSleep 10000000000;
     EvLog "========================================" [];
     EvLog "Checking availability for instance type %s..." [ArgString "gpu_1x_a6000"];
     EvDo (fetch_request "") (inl {| StatusCode := 200; RespBody := "catalog" |});
     EvDo (launch_request "" "gpu_1x_a6000" "my-key" "us-east-1")
       (inr (errors_New "connection reset"));
     EvLog "Error launching instance: %v. Retrying in %d seconds.\n"
       [ArgError (errors_New "connection reset"); ArgInt 10];
     EvSleep 10000000000].
Proof.
  destruct (C4_failures_are_retried world_down cfg_default main_start)
    as (Hfetch & _).
  destruct (C4_failures_are_retried world_launch_fails cfg_default main_start)
    as (_ & Hlaunch & Hcont & _).
  cbn zeta in Hfetch, Hlaunch.
  destruct (Hfetch {| Data := ∅ |} (errors_New "connection refused")
              (snd (getInstanceTypes world_down cfg_default
                      (snd (log_Println "========================================"
                              main_start)))))
    as [st1 [E1 _]].
  { vm_compute. reflexivity. }
  destruct (Hlaunch catalog_two
              (snd (getInstanceTypes world_launch_fails cfg_default
                      (snd (log_Println "========================================"
                              main_start))))
              "us-east-1" nil_any (errors_New "connection reset")
              (snd (launchInstance world_launch_fails cfg_default "us-east-1"
                      (snd (getInstanceTypes world_launch_fails cfg_default
                              (snd (log_Println
                                      "========================================"
                                      main_start)))))))
    as [st2 [E2 _]].
  { vm_compute. reflexivity. }
  { vm_compute. reflexivity. }
  { discriminate. }
  { vm_compute. reflexivity. }
  destruct Hcont as (_ & Hstep & _); [rewrite E2; reflexivity|].
  rewrite (Hstep 1%nat). rewrite E1, E2. cbn [fst snd trace].
  split; [reflexivity|]. split; [vm_compute; reflexivity|].
  split; [reflexivity|]. split; [vm_compute; reflexivity|].
  split; [vm_compute; reflexivity|].
  split; vm_compute; reflexivity.
Defined.

(** C8 — [checkInstanceAvailability] returns a nil error on every
    catalog; the line that the error branch after it logs is in the trace
    of no run; and a pass whose fetch succeeded either sends the launch
    request for the region found, or, none being found, sleeps the poll
    interval. *)
Theorem C8_check_never_fails (cfg : Config) :
  (∀ catalog, snd (checkInstanceAvailability cfg catalog) = None) ∧
  (∀ w fuel (s : State HealthStatus),
     Forall (λ e, is_check_error_log e = false)
       (since s (snd (launchInstanceLoop w cfg fuel s)))) ∧
  (∀ w catalog (s s2 : State HealthStatus),
     getInstanceTypes w cfg (snd (log_Println "========================================" s))
     = ((catalog, None), s2) →
     (∃ regionName res rest,
        regionName ≠ "" ∧
        since s2 (snd (loopBody w cfg s)) =
        EvDo (launch_request (apiKey cfg) (instanceTypeName cfg) (sshKeyName cfg)
                regionName) res :: rest) ∨
     (loopBody w cfg s =
      (Continue,
       mkState (globals s)
         (trace s2 ++
          [EvLog "No available regions found for %s. Checking again in %d seconds.\n"
             [ArgString (instanceTypeName cfg); ArgInt (checkInterval cfg)];
           EvSleep (seconds (checkInterval cfg))])))).
Proof.
  assert (Hnil : ∀ catalog, snd (checkInstanceAvailability cfg catalog) = None).
  { intros catalog. unfold checkInstanceAvailability.
    destruct (Data catalog !! _) as [d|];
      [destruct (RegionsWithCapacityAvailable d)|]; reflexivity. }
  split; [exact Hnil|]. split.
  - intros w fuel s.
    destruct (launchInstanceLoop_shape w cfg fuel s) as (new & E & Hlog & _).
    rewrite (since_app _ _ _ E). exact Hlog.
  - intros w catalog s s2 Hget.
    destruct (checkInstanceAvailability cfg catalog) as [region err] eqn:Hchk.
    pose proof (Hnil catalog) as Herr. rewrite Hchk in Herr. cbn in Herr. subst err.
    destruct (decide (region = "")) as [->|Hne].
    + right. apply (loopBody_no_region w cfg catalog s s2 Hget Hchk).
    + left. exists region.
      rewrite loopBody_eq. cbn zeta.
      cbn [log_Println emit snd] in Hget. rewrite Hget, Hchk.
      destruct (decide (region ≠ "")) as [_|Hno]; [|contradiction].
      rewrite launchInstance_eq. cbn zeta.
      destruct (net_Do w _ _) as [resp|err].
      2:{ eexists _, _. split; [exact Hne|]. apply since_app. cbn [snd trace].
          rewrite <- !app_assoc. cbn [app]. reflexivity. }
      destruct (Decode_any w _) as [r [e|]].
      * eexists _, _. split; [exact Hne|]. apply since_app. cbn [snd trace].
        rewrite <- !app_assoc. cbn [app]. reflexivity.
      * eexists _, _. split; [exact Hne|]. apply since_app. cbn [snd trace].
        rewrite <- !app_assoc. cbn [app]. reflexivity.
Qed.

(** [time.Duration(n) * time.Second] is [n] seconds as long as the
    product fits an [int64]. *)
Lemma seconds_exact (n : Z) :
  -9223372036 ≤ n ≤ 9223372036 → seconds n = n * 1000000000.
Proof.
  intros H. unfold seconds, wrap64, time_Second.
  rewrite Z.mod_small; lia.
Qed.

(** ** C5: the launch request and its result *)

(** A string that is valid UTF-8 is written to JSON as it is. *)
Lemma json_string_valid_len (n : nat) (s : string) :
  (String.length s ≤ n)%nat → valid_utf8 s = true → json_string s = s.
Proof.
  revert s. induction n as [|n IH]; intros s Hlen Hv.
  - destruct s; [reflexivity | cbn in Hlen; lia].
  - destruct s as [|c0 t0]; [reflexivity|].
    cbn [String.length] in Hlen. cbn [json_string valid_utf8] in *. cbn zeta.
    destruct (byte_val c0 <? 128).
    { f_equal. apply IH; [lia | exact Hv]. }
    destruct (utf8_first (byte_val c0)) as [[[k lo] hi]|]; [|discriminate].
    destruct k as [|[|[|[|[|k]]]]]; try discriminate.
    + destruct t0 as [|c1 t1]; [discriminate|].
      cbn [String.length] in Hlen.
      apply andb_prop in Hv as [H1 Hv]. rewrite H1.
      do 2 f_equal. apply IH; [lia | exact Hv].
    + destruct t0 as [|c1 [|c2 t2]]; try discriminate.
      cbn [String.length] in Hlen.
      apply andb_prop in Hv as [H12 Hv]. rewrite H12.
      do 3 f_equal. apply IH; [lia | exact Hv].
    + destruct t0 as [|c1 [|c2 [|c3 t3]]]; try discriminate.
      cbn [String.length] in Hlen.
      apply andb_prop in Hv as [H123 Hv]. rewrite H123.
      do 4 f_equal. apply IH; [lia | exact Hv].
Qed.

Lemma json_string_valid (s : string) : valid_utf8 s = true → json_string s = s.
Proof. apply (json_string_valid_len (String.length s)). lia. Qed.

(** The claim of C5 that the body holds the configured strings exactly
    fails for a string that is not valid UTF-8: with the one-byte SSH
    key name FF, the request [launchInstance] sends carries U+FFFD in
    its place. *)
Lemma C5_counterexample :
  trace (snd (launchInstance world_down cfg_odd_key "us-east-1" main_start))
  = trace main_start ++
    [EvDo (launch_request "" "gpu_1x_a6000" (String (ascii_of_nat 255) "") "us-east-1")
       (inr (errors_New "connection refused"))] ∧
  Body (launch_request "" "gpu_1x_a6000" (String (ascii_of_nat 255) "") "us-east-1")
  = Some (JObject
            [("region_name", JString "us-east-1");
             ("instance_type_name", JString "gpu_1x_a6000");
             ("ssh_key_names", JArray [JString replacement_char]);
             ("quantity", JInt 1)]) ∧
  Body (launch_request "" "gpu_1x_a6000" (String (ascii_of_nat 255) "") "us-east-1")
  ≠ Some (JObject
            [("region_name", JString "us-east-1");
             ("instance_type_name", JString "gpu_1x_a6000");
             ("ssh_key_names", JArray [JString (String (ascii_of_nat 255) "")]);
             ("quantity", JInt 1)]).
Proof. vm_compute. repeat split; congruence. Qed.

(** C5, amended — [launchInstance] sends one request: a POST to the
    launch endpoint, with the [Authorization] header that
    [SetBasicAuth(apiKey, "")] writes, the JSON content type, and the
    body
    [{"region_name": r, "instance_type_name": t, "ssh_key_names": [k],
      "quantity": 1}]
    for the region [r] it was given and the configured [t] and [k], each
    string as JSON writes it: as it is when it is valid UTF-8, with
    U+FFFD for every byte that is not.  The key list always has one
    element and the quantity is always 1.  [launchInstance] returns
    without error exactly when the provider answered and the answer
    decoded, and what it returns then is the decoded answer. *)
Theorem C5_launch_request (w : World) (cfg : Config) (regionName : string)
    (s : State HealthStatus) :
  ∃ req,
    snd (launchInstance w cfg regionName s)
    = mkState (globals s) (trace s ++ [EvDo req (net_Do w (trace s) req)]) ∧
    Method req = "POST" ∧
    URL req = "https://cloud.lambdalabs.com/api/v1/instance-operations/launch" ∧
    Header req =
      <[ "Content-Type" := "application/json" ]>
        {[ "Authorization" := "Basic " +:+ base64 (apiKey cfg +:+ ":") ]} ∧
    Body req =
      Some (JObject
              [("region_name", JString (json_string regionName));
               ("instance_type_name", JString (json_string (instanceTypeName cfg)));
               ("ssh_key_names", JArray [JString (json_string (sshKeyName cfg))]);
               ("quantity", JInt 1)]) ∧
    (valid_utf8 regionName = true →
     valid_utf8 (instanceTypeName cfg) = true →
     valid_utf8 (sshKeyName cfg) = true →
     Body req =
       Some (JObject
               [("region_name", JString regionName);
                ("instance_type_name", JString (instanceTypeName cfg));
                ("ssh_key_names", JArray [JString (sshKeyName cfg)]);
                ("quantity", JInt 1)])) ∧
    (∀ result,
       fst (launchInstance w cfg regionName s) = (result, None) ↔
       ∃ resp, net_Do w (trace s) req = inl resp ∧
               Decode_any w (RespBody resp) = (result, None)).
Proof.
  rewrite launchInstance_eq. cbn zeta.
  exists (launch_request (apiKey cfg) (instanceTypeName cfg) (sshKeyName cfg)
            regionName).
  split; [reflexivity|]. split; [reflexivity|]. split; [reflexivity|].
  split; [reflexivity|]. split; [reflexivity|]. split.
  { intros Hr Ht Hk. cbn.
    rewrite (json_string_valid _ Hr), (json_string_valid _ Ht),
      (json_string_valid _ Hk).
    reflexivity. }
  intros result. cbn [fst].
  destruct (net_Do w _ _) as [resp|err].
  - destruct (Decode_any w (RespBody resp)) as [r [e|]] eqn:Hdec; split.
    + discriminate.
    + intros (resp' & [= <-] & Hdec'). congruence.
    + intros [= ->]. eauto.
    + intros (resp' & [= <-] & Hdec'). congruence.
  - split; [discriminate|]. intros (resp' & [=] & _).
Qed.

(** The scenario of the launch: the request for [us-east-1], and the
    payload [{"id": "abc123"}] handed back as it was decoded. *)
Example scenario_launch :
  launchInstance (world_serving catalog_two) cfg_default "us-east-1" main_start
  = ((Map_any {[ "id" := String_any "abc123" ]}, None),
     mkState (globals main_start)
       (trace main_start ++
        [EvDo {| Method := "POST";
                 URL := "https://cloud.lambdalabs.com/api/v1/instance-operations/launch";
                 Body := Some (JObject
                                 [("region_name", JString "us-east-1");
                                  ("instance_type_name", JString "gpu_1x_a6000");
                                  ("ssh_key_names", JArray [JString "my-key"]);
                                  ("quantity", JInt 1)]);
                 Header := <[ "Content-Type" := "application/json" ]>
                             {[ "Authorization" := "Basic Og==" ]} |}
           (inl {| StatusCode := 200; RespBody := "launched" |})])).
Proof. vm_compute. reflexivity. Qed.

(** ** C6: what the loop writes to [healthStatus] *)

(** A pass that ends in [break] has made a launch that succeeded, and
    has left its result in [healthStatus]. *)
Lemma loopBody_break_state (w : World) (cfg : Config) (s : State HealthStatus) :
  fst (loopBody w cfg s) = Break →
  ∃ front req resp result,
    trace (snd (loopBody w cfg s)) =
    trace s ++ front ++
    [EvDo req (inl resp); EvLog "Instance launch result: %v\n" [ArgAny result]] ∧
    is_launch (EvDo req (inl resp)) = true ∧
    Decode_any w (RespBody resp) = (result, None) ∧
    globals (snd (loopBody w cfg s))
    = {| Status := "instance launched"; Result := result; Error := "" |}.
Proof.
  rewrite loopBody_eq. cbn zeta. rewrite getInstanceTypes_eq. cbn zeta.
  cbn [globals trace].
  set (h1 := (trace s ++ _) ++ _).
  destruct (net_Do w h1 _) as [resp|err]; [|discriminate].
  destruct (Decode_InstanceTypes w (RespBody resp)) as [it [e|]]; [discriminate|].
  destruct (checkInstanceAvailability cfg it) as [region [e|]]; [discriminate|].
  destruct (decide (region ≠ "")); [|discriminate].
  rewrite launchInstance_eq. cbn zeta. cbn [globals trace].
  set (req := launch_request _ _ _ _).
  destruct (net_Do w _ req) as [resp2|err2]; [|discriminate].
  destruct (Decode_any w (RespBody resp2)) as [r [e|]] eqn:Hdec; [discriminate|].
  intros _. cbn [fst snd trace globals].
  eexists [_; _; _], req, resp2, r.
  split; [subst h1; rewrite <- !app_assoc; reflexivity|].
  split; [reflexivity|]. split; [exact Hdec | reflexivity].
Qed.

(** A run that has returned ends with the launch that succeeded and the
    line that logs its result, and has left that result in
    [healthStatus]. *)
Lemma launchInstanceLoop_returned_state (w : World) (cfg : Config) (fuel : nat)
    (s : State HealthStatus) :
  fst (launchInstanceLoop w cfg fuel s) = Returned →
  ∃ front req resp result,
    since s (snd (launchInstanceLoop w cfg fuel s)) =
    front ++
    [EvDo req (inl resp); EvLog "Instance launch result: %v\n" [ArgAny result]] ∧
    is_launch (EvDo req (inl resp)) = true ∧
    Decode_any w (RespBody resp) = (result, None) ∧
    globals (snd (launchInstanceLoop w cfg fuel s))
    = {| Status := "instance launched"; Result := result; Error := "" |}.
Proof.
  revert s. induction fuel as [|fuel IH]; intros s.
  - cbn. discriminate.
  - rewrite launchInstanceLoop_S.
    pose proof (loopBody_break_state w cfg s) as Hbreak.
    destruct (loopBody_shape w cfg s) as (new & E & _).
    destruct (loopBody w cfg s) as [[|] s1]; cbn [fst snd] in *.
    + intros Hret.
      destruct (IH s1 Hret) as (front & req & resp & result & Hs & Hl & Hd & Hg).
      destruct (launchInstanceLoop_shape w cfg fuel s1) as (new2 & E2 & _).
      rewrite (since_app _ _ _ E2) in Hs. subst new2.
      exists (new ++ front), req, resp, result.
      split; [|auto].
      apply since_app. rewrite E2, E, <- !app_assoc. reflexivity.
    + intros _.
      destruct (Hbreak eq_refl) as (front & req & resp & result & Ht & Hl & Hd & Hg).
      exists front, req, resp, result. split; [|auto].
      apply since_app. exact Ht.
Qed.

(** C6 — in the program that serves [/health]: a pass whose fetch fails,
    or whose launch fails, leaves [healthStatus] at status [error] with
    the message of the error and no result, and the loop is still
    running with that value; a pass whose launch succeeds leaves it at
    status [instance launched] with the result that launch returned and
    no error message, and the loop returns with that value however many
    passes it is given.  A run that has returned ends with the launch
    whose decoded answer is the result in [healthStatus], and more
    passes do not change it.  Encoded, the two values are
    [{"status": "error", "error": m}] and
    [{"status": "instance launched", "result": r}]. *)
Theorem C6_health_transitions (w : World) (cfg : Config)
    (s : State HealthStatus) :
  let s1 := snd (log_Println "========================================" s) in
  (∀ catalog err s2,
     getInstanceTypes w cfg s1 = ((catalog, Some err), s2) →
     let s' :=
       mkState {| Status := "error"; Result := nil_any; Error := error_Error err |}
         (trace s2 ++
          [EvLog "Error fetching instance types: %v. Retrying in %d seconds.\n"
             [ArgError err; ArgInt (errorWait cfg)];
           EvSleep (seconds (errorWait cfg))]) in
     loopBody w cfg s = (Continue, s') ∧
     launchInstanceLoop w cfg 1 s = (Running, s')) ∧
  (∀ catalog s2 regionName result err s3,
     getInstanceTypes w cfg s1 = ((catalog, None), s2) →
     checkInstanceAvailability cfg catalog = (regionName, None) →
     regionName ≠ "" →
     launchInstance w cfg regionName s2 = ((result, Some err), s3) →
     let s' :=
       mkState {| Status := "error"; Result := nil_any; Error := error_Error err |}
         (trace s3 ++
          [EvLog "Error launching instance: %v. Retrying in %d seconds.\n"
             [ArgError err; ArgInt (errorWait cfg)];
           EvSleep (seconds (errorWait cfg))]) in
     loopBody w cfg s = (Continue, s') ∧
     launchInstanceLoop w cfg 1 s = (Running, s')) ∧
  (∀ catalog s2 regionName result s3,
     getInstanceTypes w cfg s1 = ((catalog, None), s2) →
     checkInstanceAvailability cfg catalog = (regionName, None) →
     regionName ≠ "" →
     launchInstance w cfg regionName s2 = ((result, None), s3) →
     let s' :=
       mkState {| Status := "instance launched"; Result := result; Error := "" |}
         (trace s3 ++ [EvLog "Instance launch result: %v\n" [ArgAny result]]) in
     loopBody w cfg s = (Break, s') ∧
     ∀ fuel, launchInstanceLoop w cfg (S fuel) s = (Returned, s')) ∧
  (∀ fuel,
     fst (launchInstanceLoop w cfg fuel s) = Returned →
     ∃ front req resp result,
       since s (snd (launchInstanceLoop w cfg fuel s)) =
       front ++
       [EvDo req (inl resp); EvLog "Instance launch result: %v\n" [ArgAny result]] ∧
       is_launch (EvDo req (inl resp)) = true ∧
       Decode_any w (RespBody resp) = (result, None) ∧
       ∀ more,
         globals (snd (launchInstanceLoop w cfg (fuel + more) s))
         = {| Status := "instance launched"; Result := result; Error := "" |}) ∧
  (∀ err, error_Error err ≠ "" →
     json_Marshal_HealthStatus
       {| Status := "error"; Result := nil_any; Error := error_Error err |}
     = JObject [("status", JString "error");
                ("error", JString (json_string (error_Error err)))]) ∧
  (∀ result, result ≠ nil_any →
     json_Marshal_HealthStatus
       {| Status := "instance launched"; Result := result; Error := "" |}
     = JObject [("status", JString "instance launched"); ("result", JAny result)]).
Proof.
  cbn zeta. cbn [log_Println emit snd].
  split; [|split; [|split; [|split; [|split]]]].
  - intros catalog err s2 Hget.
    assert (E : loopBody w cfg s =
      (Continue,
       mkState {| Status := "error"; Result := nil_any; Error := error_Error err |}
         (trace s2 ++
          [EvLog "Error fetching instance types: %v. Retrying in %d seconds.\n"
             [ArgError err; ArgInt (errorWait cfg)];
           EvSleep (seconds (errorWait cfg))]))).
    { rewrite loopBody_eq. cbn zeta. rewrite Hget. reflexivity. }
    split; [exact E|]. rewrite launchInstanceLoop_S, E. reflexivity.
  - intros catalog s2 region result err s3 Hget Hchk Hne Hlaunch.
    assert (E : loopBody w cfg s =
      (Continue,
       mkState {| Status := "error"; Result := nil_any; Error := error_Error err |}
         (trace s3 ++
          [EvLog "Error launching instance: %v. Retrying in %d seconds.\n"
             [ArgError err; ArgInt (errorWait cfg)];
           EvSleep (seconds (errorWait cfg))]))).
    { rewrite loopBody_eq. cbn zeta. rewrite Hget, Hchk.
      destruct (decide (region ≠ "")) as [_|Hno]; [|contradiction].
      rewrite Hlaunch. reflexivity. }
    split; [exact E|]. rewrite launchInstanceLoop_S, E. reflexivity.
  - intros catalog s2 region result s3 Hget Hchk Hne Hlaunch.
    assert (E : loopBody w cfg s =
      (Break,
       mkState {| Status := "instance launched"; Result := result; Error := "" |}
         (trace s3 ++ [EvLog "Instance launch result: %v\n" [ArgAny result]]))).
    { rewrite loopBody_eq. cbn zeta. rewrite Hget, Hchk.
      destruct (decide (region ≠ "")) as [_|Hno]; [|contradiction].
      rewrite Hlaunch. reflexivity. }
    split; [exact E|]. intros fuel. rewrite launchInstanceLoop_S, E. reflexivity.
  - intros fuel Hret.
    destruct (launchInstanceLoop_returned_state w cfg fuel s Hret)
      as (front & req & resp & result & Hs & Hl & Hd & Hg).
    exists front, req, resp, result. repeat split; auto.
    intros more. rewrite launchInstanceLoop_returned; assumption.
  - intros err Hmsg. unfold json_Marshal_HealthStatus. cbn [Status Result Error].
    replace (json_string "error") with "error" by (vm_compute; reflexivity).
    destruct (decide (error_Error err = "")); [contradiction|reflexivity].
  - intros result Hres. unfold json_Marshal_HealthStatus. cbn [Status Result Error].
    replace (json_string "instance launched") with "instance launched"
      by (vm_compute; reflexivity).
    destruct (decide ("" = "")) as [_|Hne]; [|contradiction].
    destruct result; [contradiction|reflexivity..].
Qed.

Lemma C6_health_transitions_witness :
  healthHandler (globals (snd (launchInstanceLoop world_down cfg_default 1 main_start)))
  = ({[ "Content-Type" := "application/json" ]},
     JObject [("status", JString "error");
              ("error", JString "connection refused")]) ∧
  healthHandler
    (globals (snd (launchInstanceLoop (world_serving catalog_two) cfg_default 7
                     main_start)))
  = ({[ "Content-Type" := "application/json" ]},
     JObject [("status", JString "instance launched");
              ("result", JAny (Map_any {[ "id" := String_any "abc123" ]}))]) ∧
  healthHandler
    (globals (snd (launchInstanceLoop (world_launching (String_any "i-0042"))
                     cfg_default 7 main_start)))
  = ({[ "Content-Type" := "application/json" ]},
     JObject [("status", JString "instance launched");
              ("result", JAny (String_any "i-0042"))]) ∧
  length (filter (λ e, is_launch e = true)
            (since main_start
               (snd (launchInstanceLoop (world_launching (String_any "i-0042"))
                       cfg_default 7 main_start)))) = 1%nat.
Proof.
  destruct (C6_health_transitions world_down cfg_default main_start)
    as (Hfetch & _ & _ & _ & Hjson & _).
  destruct (C6_health_transitions (world_serving catalog_two) cfg_default main_start)
    as (_ & _ & Hok & _ & _ & Hjson').
  destruct (C6_health_transitions (world_launching (String_any "i-0042"))
              cfg_default main_start)
    as (_ & _ & Hok' & _ & _ & Hjson'').
  cbn zeta in Hfetch, Hok, Hok'. unfold healthHandler.
  split; [|split; [|split]].
  - destruct (Hfetch {| Data := ∅ |} (errors_New "connection refused")
                (snd (getInstanceTypes world_down cfg_default
                        (snd (log_Println "========================================"
                                main_start)))))
      as [_ E].
    { vm_compute. reflexivity. }
    rewrite E. cbn [snd globals]. rewrite Hjson; [reflexivity | discriminate].
  - destruct (Hok catalog_two
                (snd (getInstanceTypes (world_serving catalog_two) cfg_default
                        (snd (log_Println "========================================"
                                main_start))))
                "us-east-1" (Map_any {[ "id" := String_any "abc123" ]})
                (snd (launchInstance (world_serving catalog_two) cfg_default
                        "us-east-1"
                        (snd (getInstanceTypes (world_serving catalog_two) cfg_default
                                (snd (log_Println
                                        "========================================"
                                        main_start)))))))
      as [_ E].
    { vm_compute. reflexivity. }
    { vm_compute. reflexivity. }
    { discriminate. }
    { vm_compute. reflexivity. }
    rewrite (E 6%nat). cbn [snd globals]. rewrite Hjson'; [reflexivity | discriminate].
  - destruct (Hok' catalog_two
                (snd (getInstanceTypes (world_launching (String_any "i-0042"))
                        cfg_default
                        (snd (log_Println "========================================"
                                main_start))))
                "us-east-1" (String_any "i-0042")
                (snd (launchInstance (world_launching (String_any "i-0042"))
                        cfg_default "us-east-1"
                        (snd (getInstanceTypes (world_launching (String_any "i-0042"))
                                cfg_default
                                (snd (log_Println
                                        "========================================"
                                        main_start)))))))
      as [_ E].
    { vm_compute. reflexivity. }
    { vm_compute. reflexivity. }
    { discriminate. }
    { vm_compute. reflexivity. }
    rewrite (E 6%nat). cbn [snd globals]. rewrite Hjson''; [reflexivity | discriminate].
  - vm_compute. reflexivity.
Defined.

(** ** C7, C10: the configuration [init] reads *)

Lemma init_setting (dotenv : option (gmap string string))
    (environ : gmap string string) (x : Setting) :
  setting_value x (fst (init dotenv environ)) =
  let n := fst (Atoi (Getenv (fst (godotenv_Load dotenv environ)) (setting_key x))) in
  if n =? 0 then setting_default x else n.
Proof.
  unfold init. destruct (godotenv_Load dotenv environ) as [env err]. cbn [fst].
  destruct (Atoi (Getenv env "CHECK_INTERVAL_SECONDS")) as [a ea] eqn:Ha.
  destruct (Atoi (Getenv env "ERROR_WAIT_SECONDS")) as [b eb] eqn:Hb.
  destruct (Atoi (Getenv env "PORT")) as [c ec] eqn:Hc.
  destruct x; cbn [setting_value setting_key setting_default fst
                   checkInterval errorWait port];
    rewrite ?Ha, ?Hb, ?Hc; reflexivity.
Qed.

(** The second program reads its configuration as the first does. *)
Lemma Plain_init_as_Health (dotenv : option (gmap string string))
    (environ : gmap string string) :
  Plain.init dotenv environ =
  (plain_config (fst (init dotenv environ)), snd (init dotenv environ)).
Proof.
  unfold Plain.init, init. destruct (godotenv_Load dotenv environ) as [env err].
  destruct (Atoi (Getenv env "CHECK_INTERVAL_SECONDS")) as [a ea].
  destruct (Atoi (Getenv env "ERROR_WAIT_SECONDS")) as [b eb].
  destruct (Atoi (Getenv env "PORT")) as [c ec].
  reflexivity.
Qed.

Lemma Getenv_unset (env : gmap string string) (key : string) :
  env !! key = None → Getenv env key = "".
Proof. intros H. unfold Getenv. rewrite H. reflexivity. Qed.

Example init_nothing_set :
  fst (init None ∅) =
  {| apiKey := ""; instanceTypeName := "gpu_1x_a6000"; sshKeyName := "";
     checkInterval := 30; errorWait := 10; port := 5000 |} ∧
  fst (Plain.init None ∅) =
  {| Plain.apiKey := ""; Plain.instanceTypeName := "gpu_1x_a6000";
     Plain.sshKeyName := ""; Plain.checkInterval := 30; Plain.errorWait := 10 |}.
Proof. vm_compute. auto. Qed.

(** The claim of C7 that the two programs default the poll interval
    differently fails: with nothing set, both come to 30. *)
Lemma C7_counterexample :
  ¬ (checkInterval (fst (init None ∅)) = 30 ∧
     Plain.checkInterval (fst (Plain.init None ∅)) ≠ checkInterval (fst (init None ∅)) ∧
     errorWait (fst (init None ∅)) = 10 ∧
     port (fst (init None ∅)) = 5000).
Proof. intros (_ & Hdiff & _). apply Hdiff. vm_compute. reflexivity. Qed.

(** C7, amended — the poll interval defaults to 30 seconds and the
    error-retry interval to 10 seconds in both programs, and the listen
    port to 5000 in the program that serves health; whatever the
    environment, the two programs read the same poll interval. *)
Theorem C7_defaults (dotenv : option (gmap string string))
    (environ : gmap string string) :
  let env := fst (godotenv_Load dotenv environ) in
  let cfg := fst (init dotenv environ) in
  let pcfg := fst (Plain.init dotenv environ) in
  (env !! "CHECK_INTERVAL_SECONDS" = None →
   checkInterval cfg = 30 ∧ Plain.checkInterval pcfg = 30) ∧
  (env !! "ERROR_WAIT_SECONDS" = None →
   errorWait cfg = 10 ∧ Plain.errorWait pcfg = 10) ∧
  (env !! "PORT" = None → port cfg = 5000) ∧
  Plain.checkInterval pcfg = checkInterval cfg ∧
  Plain.errorWait pcfg = errorWait cfg.
Proof.
  cbn zeta. rewrite Plain_init_as_Health. cbn [fst plain_config
    Plain.checkInterval Plain.errorWait].
  pose proof (init_setting dotenv environ PollInterval) as Hp.
  pose proof (init_setting dotenv environ ErrorRetryInterval) as He.
  pose proof (init_setting dotenv environ ListenPort) as Hl.
  cbn [setting_value setting_key setting_default] in Hp, He, Hl. cbn zeta in Hp, He, Hl.
  split; [|split; [|split; [|split; reflexivity]]].
  - intros H. rewrite Hp, (Getenv_unset _ _ H). split; reflexivity.
  - intros H. rewrite He, (Getenv_unset _ _ H). split; reflexivity.
  - intros H. rewrite Hl, (Getenv_unset _ _ H). reflexivity.
Qed.

(** *** [strconv.Atoi] on what is and what is not a number *)

Lemma byte_val_range (c : ascii) : 0 ≤ byte_val c < 256.
Proof.
  unfold byte_val. pose proof (N_ascii_bounded c). lia.
Qed.

Lemma is_digit_not_sign (c : ascii) :
  is_digit c = true → Ascii.eqb c "-"%char = false ∧ Ascii.eqb c "+"%char = false.
Proof.
  intros H. split.
  - destruct (Ascii.eqb_spec c "-"%char) as [->|]; [discriminate|reflexivity].
  - destruct (Ascii.eqb_spec c "+"%char) as [->|]; [discriminate|reflexivity].
Qed.

(** A syntax error always comes with the value 0. *)
Lemma Atoi_loop_error (s : string) (n m : Z) (e : NumError) :
  Atoi_loop s n = (m, Some e) → m = 0 ∧ e = ErrSyntax.
Proof.
  revert n. induction s as [|c rest IH]; intros n; cbn [Atoi_loop].
  - discriminate.
  - cbn zeta. destruct (9 <? _); [intros [= <- <-]; auto|apply IH].
Qed.

Lemma ParseUint_loop_syntax (s : string) (n m : Z) :
  ParseUint_loop s n = (m, Some ErrSyntax) → m = 0.
Proof.
  revert n. induction s as [|c rest IH]; intros n; cbn [ParseUint_loop].
  - discriminate.
  - cbn zeta. destruct (negb _); [intros [= <-]; reflexivity|].
    destruct (_ <=? n); [discriminate|].
    destruct (_ || _); [discriminate|apply IH].
Qed.

Lemma ParseInt_syntax (s : string) (m : Z) :
  ParseInt s = (m, Some ErrSyntax) → m = 0.
Proof.
  unfold ParseInt. destruct s as [|c rest]; [intros [= <-]; reflexivity|].
  cbn zeta.
  destruct (ParseUint _) as [un [[|]|]]; [intros [= <-]; reflexivity|..];
    repeat (match goal with |- context [if ?b then _ else _] => destruct b end);
    intros [=].
Qed.

Lemma Atoi_syntax_zero (s : string) (m : Z) :
  Atoi s = (m, Some ErrSyntax) → m = 0.
Proof.
  unfold Atoi. cbn zeta.
  destruct (_ && _); [|apply ParseInt_syntax].
  destruct s as [|c rest]; [intros [= <-]; reflexivity|].
  destruct (_ && _); [intros [= <-]; reflexivity|].
  destruct (Atoi_loop _ 0) as [n [e|]]; [intros [= <-]; reflexivity|].
  intros [=].
Qed.

Lemma Atoi_loop_not_digits (s : string) (n : Z) :
  all_digits s = false → Atoi_loop s n = (0, Some ErrSyntax).
Proof.
  revert n. induction s as [|c rest IH]; intros n; cbn [all_digits Atoi_loop].
  - discriminate.
  - cbn zeta. pose proof (byte_val_range c) as Hc. unfold is_digit.
    destruct (Z.leb_spec 48 (byte_val c)) as [H1|H1]; cbn [andb].
    + destruct (Z.leb_spec (byte_val c) 57) as [H2|H2]; cbn [andb].
      * intros Hrest. rewrite Z.mod_small by lia.
        destruct (Z.ltb_spec 9 (byte_val c - 48)); [lia|]. apply IH, Hrest.
      * intros _. rewrite Z.mod_small by lia.
        destruct (Z.ltb_spec 9 (byte_val c - 48)); [reflexivity|lia].
    + intros _.
      replace ((byte_val c - 48) mod 256) with (byte_val c + 208).
      2:{ apply Z.mod_unique with (q := -1); lia. }
      destruct (Z.ltb_spec 9 (byte_val c + 208)); [reflexivity|lia].
Qed.

(** What is not a decimal integer and is shorter than 19 bytes is a
    syntax error. *)
Lemma Atoi_not_numeric (s : string) :
  numeric s = false → (String.length s < 19)%nat → Atoi s = (0, Some ErrSyntax).
Proof.
  intros Hnum Hlen. unfold Atoi. cbn zeta.
  destruct s as [|c rest]; [reflexivity|].
  replace (_ && _) with true.
  2:{ symmetry. apply andb_true_intro.
      split; apply Z.ltb_lt; cbn [String.length] in *; lia. }
  cbn [numeric] in Hnum.
  destruct (Ascii.eqb c "-"%char || Ascii.eqb c "+"%char) eqn:Hsign.
  - cbn [andb]. destruct rest as [|c' rest']; [reflexivity|].
    cbn [String.eqb negb andb] in Hnum.
    replace (Z.of_nat (String.length (String c' rest')) <? 1) with false.
    2:{ symmetry. apply Z.ltb_ge. cbn [String.length]. lia. }
    rewrite (Atoi_loop_not_digits _ 0 Hnum). reflexivity.
  - cbn [andb]. rewrite (Atoi_loop_not_digits _ 0 Hnum). reflexivity.
Qed.

(** *** [strconv.Atoi] reads back what [strconv.Itoa] writes

    [pretty n] is the decimal writing of [n], that of [strconv.Itoa]. *)

Lemma pretty_N_char_digit (d : N) :
  (d < 10)%N → byte_val (pretty_N_char d) = 48 + Z.of_N d.
Proof.
  intros H.
  assert (d = 0 ∨ d = 1 ∨ d = 2 ∨ d = 3 ∨ d = 4 ∨ d = 5 ∨ d = 6 ∨ d = 7
          ∨ d = 8 ∨ d = 9)%N as Hd by lia.
  repeat (destruct Hd as [-> | Hd]; [reflexivity|]). subst d. reflexivity.
Qed.

Lemma pretty_N_char_is_digit (d : N) :
  (d < 10)%N → is_digit (pretty_N_char d) = true.
Proof.
  intros H. unfold is_digit. rewrite (pretty_N_char_digit d H).
  apply andb_true_intro. split; apply Z.leb_le; lia.
Qed.

Lemma pretty_N_go_starts_with_digit (x : N) (s : string) :
  (0 < x)%N ∨ starts_with_digit s → starts_with_digit (pretty_N_go x s).
Proof.
  revert s. induction (N.lt_wf_0 x) as [x _ IH]; intros s H.
  assert (x = 0 ∨ 0 < x)%N as [-> | Hpos] by lia.
  - rewrite pretty_N_go_0. destruct H as [H|H]; [lia|exact H].
  - rewrite pretty_N_go_step by exact Hpos. apply IH.
    + apply N.div_lt; lia.
    + right. cbn. apply pretty_N_char_is_digit. apply N.mod_lt. lia.
Qed.

Lemma digit_bounds (x : N) : 0 ≤ Z.of_N (x `mod` 10) < 10.
Proof.
  split; [apply N2Z.is_nonneg|].
  change 10 with (Z.of_N 10). apply N2Z.inj_lt. apply N.mod_lt. discriminate.
Qed.

Lemma digits_sum (x : N) :
  Z.of_N x = Z.of_N (x `div` 10) * 10 + Z.of_N (x `mod` 10).
Proof.
  rewrite (N.div_mod x 10) at 1 by discriminate.
  rewrite N2Z.inj_add, N2Z.inj_mul. change (Z.of_N 10) with 10. ring.
Qed.

Lemma Atoi_loop_pretty_N_go (x : N) (s : string) :
  Atoi_loop (pretty_N_go x s) 0 = Atoi_loop s (Z.of_N x).
Proof.
  revert s. induction (N.lt_wf_0 x) as [x _ IH]; intros s.
  assert (x = 0 ∨ 0 < x)%N as [-> | Hpos] by lia.
  - rewrite pretty_N_go_0. reflexivity.
  - rewrite pretty_N_go_step by exact Hpos.
    rewrite IH by (apply N.div_lt; lia).
    cbn [Atoi_loop]. cbn zeta.
    assert (Hd : (x `mod` 10 < 10)%N) by (apply N.mod_lt; lia).
    rewrite (pretty_N_char_digit _ Hd).
    pose proof (digit_bounds x) as Hb. pose proof (digits_sum x) as Hsum.
    set (d := Z.of_N (x `mod` 10)) in *. set (q := Z.of_N (x `div` 10)) in *.
    replace (48 + d - 48) with d by lia.
    rewrite Z.mod_small by lia.
    destruct (Z.ltb_spec 9 d); [lia|].
    rewrite Hsum. reflexivity.
Qed.

Lemma ParseUint_loop_pretty_N_go (x : N) (s : string) :
  Z.of_N x < 2 ^ 64 →
  ParseUint_loop (pretty_N_go x s) 0 = ParseUint_loop s (Z.of_N x).
Proof.
  revert s. induction (N.lt_wf_0 x) as [x _ IH]; intros s Hx.
  assert (x = 0 ∨ 0 < x)%N as [-> | Hpos] by lia.
  - rewrite pretty_N_go_0. reflexivity.
  - rewrite pretty_N_go_step by exact Hpos.
    assert (Hd : (x `mod` 10 < 10)%N) by (apply N.mod_lt; lia).
    pose proof (digit_bounds x) as Hb. pose proof (digits_sum x) as Hsum.
    pose proof (N2Z.is_nonneg (x `div` 10)) as Hq.
    rewrite IH; [|apply N.div_lt; lia|].
    2:{ set (d := Z.of_N (x `mod` 10)) in *. set (q := Z.of_N (x `div` 10)) in *.
        lia. }
    cbn [ParseUint_loop]. cbn zeta.
    rewrite (pretty_N_char_digit _ Hd).
    set (d := Z.of_N (x `mod` 10)) in *. set (q := Z.of_N (x `div` 10)) in *.
    replace (48 + d - 48) with d by lia.
    destruct (Z.leb_spec 48 (48 + d)); [|lia].
    destruct (Z.leb_spec (48 + d) 57); [|lia].
    cbn [andb negb].
    change (maxUint64 / 10 + 1) with 1844674407370955162.
    destruct (Z.leb_spec 1844674407370955162 q); [lia|].
    rewrite <- Hsum. rewrite Z.mod_small by lia.
    destruct (Z.ltb_spec (Z.of_N x) (q * 10)); [lia|].
    unfold maxUint64.
    destruct (Z.ltb_spec (2 ^ 64 - 1) (Z.of_N x)); [lia|].
    reflexivity.
Qed.

Lemma pretty_N_go_not_empty (x : N) :
  (0 < x)%N → ∃ c rest, pretty_N_go x "" = String c rest ∧ is_digit c = true.
Proof.
  intros Hx.
  pose proof (pretty_N_go_starts_with_digit x "" (or_introl Hx)) as H.
  destruct (pretty_N_go x "") as [|c rest]; [contradiction|]. eauto.
Qed.

Lemma ParseUint_digits (x : N) :
  (0 < x)%N → Z.of_N x < 2 ^ 64 →
  ParseUint (pretty_N_go x "") = (Z.of_N x, None).
Proof.
  intros Hpos Hx.
  destruct (pretty_N_go_not_empty x Hpos) as (c & rest & E & Hc).
  unfold ParseUint. rewrite E. cbv iota. rewrite <- E.
  rewrite ParseUint_loop_pretty_N_go by exact Hx. reflexivity.
Qed.

(** Both paths of [Atoi] read the digits of a positive number back. *)
Lemma ParseInt_digits (x : N) :
  (0 < x)%N → Z.of_N x < 2 ^ 63 →
  ParseInt (pretty_N_go x "") = (Z.of_N x, None).
Proof.
  intros Hpos Hx.
  destruct (pretty_N_go_not_empty x Hpos) as (c & rest & E & Hc).
  destruct (is_digit_not_sign c Hc) as [Hminus Hplus].
  unfold ParseInt. rewrite E. cbn zeta. rewrite Hminus, Hplus. cbn [orb].
  rewrite <- E, ParseUint_digits by lia.
  cbn [negb andb].
  destruct (Z.leb_spec (2 ^ 63) (Z.of_N x)); [lia|]. reflexivity.
Qed.

Lemma ParseInt_minus_digits (x : N) :
  (0 < x)%N → Z.of_N x ≤ 2 ^ 63 →
  ParseInt (String "-" (pretty_N_go x "")) = (- Z.of_N x, None).
Proof.
  intros Hpos Hx.
  unfold ParseInt. cbn zeta. cbn [Ascii.eqb Bool.eqb orb].
  rewrite ParseUint_digits by lia.
  cbn [negb andb].
  destruct (Z.ltb_spec (2 ^ 63) (Z.of_N x)); [lia|]. reflexivity.
Qed.

Lemma Atoi_digits (x : N) :
  (0 < x)%N → Z.of_N x < 2 ^ 63 →
  Atoi (pretty_N_go x "") = (Z.of_N x, None).
Proof.
  intros Hpos Hx. unfold Atoi. cbn zeta.
  destruct (_ && _); [|apply ParseInt_digits; assumption].
  destruct (pretty_N_go_not_empty x Hpos) as (c & rest & E & Hc).
  destruct (is_digit_not_sign c Hc) as [Hminus Hplus].
  rewrite E. rewrite Hminus, Hplus. cbn [orb andb].
  rewrite <- E, Atoi_loop_pretty_N_go. reflexivity.
Qed.

Lemma Atoi_minus_digits (x : N) :
  (0 < x)%N → Z.of_N x ≤ 2 ^ 63 →
  Atoi (String "-" (pretty_N_go x "")) = (- Z.of_N x, None).
Proof.
  intros Hpos Hx. unfold Atoi. cbn zeta.
  destruct (_ && _); [|apply ParseInt_minus_digits; assumption].
  destruct (pretty_N_go_not_empty x Hpos) as (c & rest & E & Hc).
  cbn [Ascii.eqb Bool.eqb orb andb].
  rewrite E at 1. cbn [String.length].
  destruct (Z.ltb_spec (Z.of_nat (S (String.length rest))) 1); [lia|].
  rewrite Atoi_loop_pretty_N_go. reflexivity.
Qed.

(** Every [int] written in decimal is read back as it is. *)
Lemma Atoi_pretty (n : Z) :
  - 2 ^ 63 ≤ n < 2 ^ 63 → Atoi (pretty n) = (n, None).
Proof.
  intros Hn. destruct n as [|p|p].
  - reflexivity.
  - change (pretty (Z.pos p)) with (pretty_N_go (N.pos p) "").
    apply (Atoi_digits (N.pos p)); lia.
  - change (pretty (Z.neg p)) with (String "-" (pretty_N_go (N.pos p) "")).
    apply (Atoi_minus_digits (N.pos p)); lia.
Qed.

(** *** C10 *)

(** A run of digits that overflows is a range error even when something
    else follows it: [ParseUint] stops at the digit that overflows. *)
Example Atoi_overflow_then_letter :
  numeric "99999999999999999999x" = false ∧
  Atoi "99999999999999999999x" = (2 ^ 63 - 1, Some ErrRange).
Proof. vm_compute. auto. Qed.

Example init_odd_values :
  fst (init None {[ "CHECK_INTERVAL_SECONDS" := "soon";
                    "ERROR_WAIT_SECONDS" := "0";
                    "PORT" := "-5" ]})
  = {| apiKey := ""; instanceTypeName := "gpu_1x_a6000"; sshKeyName := "";
       checkInterval := 30; errorWait := 10; port := -5 |}.
Proof. vm_compute. reflexivity. Qed.

(** The claim of C10 fails in both of its parts.  A value that is not a
    number, made of an overflowing run of digits and a letter, is not
    replaced by the default: [Atoi] returns the greatest [int] for it.
    A negative value below the least [int] is not kept as it is: the
    least [int] is kept in its place. *)
Lemma C10_counterexample :
  (numeric "99999999999999999999x" = false ∧
   checkInterval
     (fst (init None {[ "CHECK_INTERVAL_SECONDS" := "99999999999999999999x" ]}))
   ≠ 30) ∧
  (pretty (-99999999999999999999) = "-99999999999999999999" ∧
   checkInterval
     (fst (init None {[ "CHECK_INTERVAL_SECONDS" := "-99999999999999999999" ]}))
   ≠ -99999999999999999999).
Proof. vm_compute. repeat split; congruence. Qed.

(** C10, amended — for each of the poll interval, the error-retry
    interval and the port: when the variable is absent, when
    [strconv.Atoi] rejects its value as a syntax error (as it does any
    value shorter than 19 bytes that is not a decimal integer), or when
    the value parses to 0, [init] puts the default (30, 10, 5000) in its
    place; any other value [Atoi] returns is kept, its error being
    dropped, so a negative value that fits an [int] is kept as it is. *)
Theorem C10_zero_means_default (dotenv : option (gmap string string))
    (environ : gmap string string) (x : Setting) :
  let env := fst (godotenv_Load dotenv environ) in
  let v := Getenv env (setting_key x) in
  let got := setting_value x (fst (init dotenv environ)) in
  (env !! setting_key x = None → got = setting_default x) ∧
  (snd (Atoi v) = Some ErrSyntax → got = setting_default x) ∧
  (numeric v = false → (String.length v < 19)%nat → got = setting_default x) ∧
  (fst (Atoi v) = 0 → got = setting_default x) ∧
  (fst (Atoi v) ≠ 0 → got = fst (Atoi v)) ∧
  (∀ n, - 2 ^ 63 ≤ n < 0 → v = pretty n → got = n).
Proof.
  cbn zeta. rewrite init_setting. cbn zeta.
  set (v := Getenv _ _).
  assert (Hzero : fst (Atoi v) = 0 →
                  (if fst (Atoi v) =? 0 then setting_default x else fst (Atoi v))
                  = setting_default x).
  { intros ->. reflexivity. }
  split; [|split; [|split; [|split; [|split]]]].
  - intros Hunset. apply Hzero. subst v. rewrite (Getenv_unset _ _ Hunset).
    reflexivity.
  - intros Herr. apply Hzero. destruct (Atoi v) as [m e] eqn:E. cbn in *.
    subst e. apply (Atoi_syntax_zero v m E).
  - intros Hnum Hlen. apply Hzero. rewrite (Atoi_not_numeric v Hnum Hlen).
    reflexivity.
  - exact Hzero.
  - intros Hne. destruct (Z.eqb_spec (fst (Atoi v)) 0); [contradiction|reflexivity].
  - intros n Hn Hv. rewrite Hv, Atoi_pretty by lia. cbn [fst].
    destruct (Z.eqb_spec n 0); [lia|reflexivity].
Qed.

Lemma C10_zero_means_default_witness :
  port (fst (init None {[ "PORT" := "-5" ]})) = -5 ∧
  checkInterval (fst (init None {[ "CHECK_INTERVAL_SECONDS" := "soon" ]})) = 30 ∧
  errorWait (fst (init None {[ "ERROR_WAIT_SECONDS" := "0" ]})) = 10.
Proof.
  destruct (C10_zero_means_default None {[ "PORT" := "-5" ]} ListenPort)
    as (_ & _ & _ & _ & _ & Hneg).
  destruct (C10_zero_means_default None {[ "CHECK_INTERVAL_SECONDS" := "soon" ]}
              PollInterval) as (_ & _ & Hword & _).
  destruct (C10_zero_means_default None {[ "ERROR_WAIT_SECONDS" := "0" ]}
              ErrorRetryInterval) as (_ & _ & _ & Hzero & _).
  cbn zeta in Hneg, Hword, Hzero. split; [|split].
  - apply (Hneg (-5)); [lia | vm_compute; reflexivity].
  - apply Hword; [vm_compute; reflexivity | vm_compute; lia].
  - apply Hzero. vm_compute. reflexivity.
Defined.

(** * Further properties of the two programs *)

(** ** Every pass has one of four shapes *)

Section Passes.

Variable w : World.
Variable cfg : Config.

Lemma loopBody_pass_events (s : State HealthStatus) :
  trace (snd (loopBody w cfg s)) = trace s ++ since s (snd (loopBody w cfg s)) ∧
  pass_events w cfg (fst (loopBody w cfg s)) (since s (snd (loopBody w cfg s))).
Proof.
  rewrite loopBody_eq. cbn zeta. rewrite getInstanceTypes_eq. cbn zeta.
  cbn [globals trace].
  set (h1 := (trace s ++ _) ++ _).
  destruct (net_Do w h1 _) as [resp|err] eqn:Hnet.
  2:{ cbn [fst snd trace]. erewrite since_app.
      2:{ cbn [trace]. subst h1. rewrite <- !app_assoc. cbn [app]. reflexivity. }
      split; [subst h1; rewrite <- !app_assoc; reflexivity|].
      apply pass_fetch_failed. reflexivity. }
  destruct (Decode_InstanceTypes w (RespBody resp)) as [it [e|]] eqn:Hdec.
  { cbn [fst snd trace]. erewrite since_app.
    2:{ cbn [trace]. subst h1. rewrite <- !app_assoc. cbn [app]. reflexivity. }
    split; [subst h1; rewrite <- !app_assoc; reflexivity|].
    apply pass_fetch_failed. cbn. rewrite Hdec. reflexivity. }
  destruct (checkInstanceAvailability cfg it) as [region [e|]] eqn:Hchk.
  { exfalso. unfold checkInstanceAvailability in Hchk.
    destruct (Data it !! _) as [d|]; [destruct (RegionsWithCapacityAvailable d)|];
      discriminate. }
  destruct (decide (region ≠ "")) as [Hne|Heq].
  - rewrite launchInstance_eq. cbn zeta. cbn [globals trace].
    set (req := launch_request _ _ _ _).
    destruct (net_Do w _ req) as [resp2|err2] eqn:Hnet2.
    2:{ cbn [fst snd trace]. erewrite since_app.
        2:{ cbn [trace]. subst h1. rewrite <- !app_assoc. cbn [app]. reflexivity. }
        split; [subst h1; rewrite <- !app_assoc; reflexivity|].
        eapply pass_launch_failed; eauto. reflexivity. }
    destruct (Decode_any w (RespBody resp2)) as [r [e|]] eqn:Hdec2.
    + cbn [fst snd trace]. erewrite since_app.
      2:{ cbn [trace]. subst h1. rewrite <- !app_assoc. cbn [app]. reflexivity. }
      split; [subst h1; rewrite <- !app_assoc; reflexivity|].
      eapply pass_launch_failed; eauto. cbn. rewrite Hdec2. reflexivity.
    + cbn [fst snd trace]. erewrite since_app.
      2:{ cbn [trace]. subst h1. rewrite <- !app_assoc. cbn [app]. reflexivity. }
      split; [subst h1; rewrite <- !app_assoc; reflexivity|].
      eapply pass_launched; eauto.
  - assert (region = "") as -> by (destruct (decide (region = "")); tauto).
    cbn [fst snd trace]. erewrite since_app.
    2:{ cbn [trace]. subst h1. rewrite <- !app_assoc. cbn [app]. reflexivity. }
    split; [subst h1; rewrite <- !app_assoc; reflexivity|].
    eapply pass_no_region; eauto.
Qed.

Lemma launchInstanceLoop_run_events (fuel : nat) (s : State HealthStatus) :
  trace (snd (launchInstanceLoop w cfg fuel s))
  = trace s ++ since s (snd (launchInstanceLoop w cfg fuel s)) ∧
  run_events w cfg (fst (launchInstanceLoop w cfg fuel s))
    (since s (snd (launchInstanceLoop w cfg fuel s))).
Proof.
  revert s. induction fuel as [|fuel IH]; intros s.
  - cbn [launchInstanceLoop]. unfold mret, M_ret. cbn [fst snd].
    rewrite (since_app s s []) by (symmetry; apply app_nil_r).
    split; [symmetry; apply app_nil_r | constructor].
  - rewrite launchInstanceLoop_S.
    destruct (loopBody_pass_events s) as [E1 H1].
    destruct (loopBody w cfg s) as [[|] s1]; cbn [fst snd] in *.
    + destruct (IH s1) as [E2 H2].
      assert (E : trace (snd (launchInstanceLoop w cfg fuel s1))
                  = trace s ++ (since s s1 ++
                                since s1 (snd (launchInstanceLoop w cfg fuel s1)))).
      { rewrite E2. rewrite E1 at 1. rewrite <- app_assoc. reflexivity. }
      rewrite (since_app _ _ _ E). split; [exact E|].
      apply run_continue; assumption.
    + split; [exact E1|]. apply run_break. exact H1.
Qed.

End Passes.

(** ** What the calls of a run are, and in which order they come *)

Lemma checkInstanceAvailability_region (cfg : Config) (catalog : InstanceTypes)
    (regionName : string) :
  checkInstanceAvailability cfg catalog = (regionName, None) →
  regionName ≠ "" →
  ∃ data first others,
    Data catalog !! instanceTypeName cfg = Some data ∧
    RegionsWithCapacityAvailable data = first :: others ∧
    Name first = regionName.
Proof.
  unfold checkInstanceAvailability. intros H Hne.
  destruct (Data catalog !! instanceTypeName cfg) as [data|]; [|congruence].
  destruct (RegionsWithCapacityAvailable data) as [|first others] eqn:E;
    [congruence|].
  exists data, first, others. injection H as ->. auto.
Qed.

(** In a pass the fetch is the third event and the only fetch. *)
Lemma pass_fetch_at_2 (w : World) (cfg : Config) (c : Control) (l : list Event) :
  pass_events w cfg c l →
  (∃ res, l !! 2%nat = Some (EvDo (fetch_request (apiKey cfg)) res)) ∧
  (∀ i e, l !! i = Some e → is_fetch e = true → i = 2%nat).
Proof.
  intros H. split.
  - inversion H; subst; eexists; reflexivity.
  - intros i e Hi He.
    inversion H; subst;
      repeat (destruct i as [|i]; [cbn in Hi; injection Hi as <-;
                                   first [discriminate He | reflexivity]|]);
      cbn in Hi; discriminate Hi.
Qed.

(** A pass that ends in [continue] ends with a sleep of one of the two
    configured intervals. *)
Lemma pass_continue_ends_with_sleep (w : World) (cfg : Config) (l : list Event) :
  pass_events w cfg Continue l →
  ∃ d, (3 < length l)%nat ∧ l !! (length l - 1)%nat = Some (EvSleep d) ∧
       (d = seconds (errorWait cfg) ∨ d = seconds (checkInterval cfg)).
Proof.
  intros H. inversion H; subst; eexists; cbn [length];
    (split; [lia|]); (split; [reflexivity|]); auto.
Qed.

(** In a pass a launch call is the fourth event, right after a fetch
    that succeeded, and is made for the first region of its catalog. *)
Lemma pass_launch_at_3 (w : World) (cfg : Config) (c : Control) (l : list Event)
    (i : nat) (e : Event) :
  pass_events w cfg c l →
  l !! i = Some e → is_launch e = true →
  ∃ resp catalog data first others res,
    i = 3%nat ∧
    l !! 2%nat = Some (EvDo (fetch_request (apiKey cfg)) (inl resp)) ∧
    Decode_InstanceTypes w (RespBody resp) = (catalog, None) ∧
    Data catalog !! instanceTypeName cfg = Some data ∧
    RegionsWithCapacityAvailable data = first :: others ∧
    Name first ≠ "" ∧
    e = EvDo (launch_request (apiKey cfg) (instanceTypeName cfg) (sshKeyName cfg)
                (Name first)) res.
Proof.
  intros H Hi He.
  inversion H as [res err Hf | resp catalog Hdec Hchk
                  | resp catalog region res err Hdec Hchk Hne Hf
                  | resp catalog region resp' result Hdec Hchk Hne Hdec'];
    subst;
    repeat (destruct i as [|i]; [cbn in Hi; injection Hi as <-;
                                 first [discriminate He | idtac]|]);
    try (cbn in Hi; discriminate Hi).
  - destruct (checkInstanceAvailability_region cfg catalog region Hchk Hne)
      as (data & first & others & Hdata & Hregions & <-).
    exists resp, catalog, data, first, others, res. repeat split; auto.
  - destruct (checkInstanceAvailability_region cfg catalog region Hchk Hne)
      as (data & first & others & Hdata & Hregions & <-).
    exists resp, catalog, data, first, others, (inl resp'). repeat split; auto.
Qed.

Lemma pass_counts (w : World) (cfg : Config) (c : Control) (l : list Event) :
  pass_events w cfg c l →
  length (filter (λ e, is_fetch e = true) l) = 1%nat ∧
  (length (filter (λ e, is_launch e = true) l) ≤ 1)%nat ∧
  (c = Break → length (filter (λ e, is_launch e = true) l) = 1%nat).
Proof.
  intros H. inversion H; subst; vm_compute; repeat split; auto; discriminate.
Qed.

(** X5 — every request a run sends is the program's fetch request or
    its launch request for a region with a non-empty name, and carries
    the [Authorization] header that [SetBasicAuth(apiKey, "")] writes:
    [Basic] and the base64 of the API key followed by a colon. *)
Theorem run_sends_only_its_two_requests (w : World) (cfg : Config) (fuel : nat)
    (s : State HealthStatus) :
  Forall
    (λ e, match e with
          | EvDo req _ =>
              (req = fetch_request (apiKey cfg) ∨
               ∃ regionName,
                 regionName ≠ "" ∧
                 req = launch_request (apiKey cfg) (instanceTypeName cfg)
                         (sshKeyName cfg) regionName) ∧
              Header req !! "Authorization"
              = Some ("Basic " +:+ base64 (apiKey cfg +:+ ":"))
          | _ => True
          end)
    (since s (snd (launchInstanceLoop w cfg fuel s))).
Proof.
  destruct (launchInstanceLoop_run_events w cfg fuel s) as [_ Hrun].
  assert (Hfetch : Header (fetch_request (apiKey cfg)) !! "Authorization"
                   = Some ("Basic " +:+ base64 (apiKey cfg +:+ ":"))).
  { unfold fetch_request, SetBasicAuth, Header_Set. cbn [Header].
    apply lookup_insert_eq. }
  assert (Hlaunch : ∀ r,
            Header (launch_request (apiKey cfg) (instanceTypeName cfg)
                      (sshKeyName cfg) r) !! "Authorization"
            = Some ("Basic " +:+ base64 (apiKey cfg +:+ ":"))).
  { intros r. unfold launch_request, SetBasicAuth, Header_Set. cbn [Header].
    rewrite lookup_insert_ne by discriminate. apply lookup_insert_eq. }
  assert (Hpass : ∀ c l, pass_events w cfg c l →
    Forall
      (λ e, match e with
            | EvDo req _ =>
                (req = fetch_request (apiKey cfg) ∨
                 ∃ regionName,
                   regionName ≠ "" ∧
                   req = launch_request (apiKey cfg) (instanceTypeName cfg)
                           (sshKeyName cfg) regionName) ∧
                Header req !! "Authorization"
                = Some ("Basic " +:+ base64 (apiKey cfg +:+ ":"))
            | _ => True
            end) l).
  { intros c l H.
    inversion H; subst;
      repeat (apply List.Forall_cons;
              [first [exact I
                     | split; [left; reflexivity | exact Hfetch]
                     | split; [right; eauto | apply Hlaunch]]|]);
      apply List.Forall_nil. }
  induction Hrun as [|pass rest outcome Hp _ IH|pass Hp].
  - constructor.
  - apply Forall_app. split; [eapply Hpass; eassumption | exact IH].
  - eapply Hpass; eassumption.
Qed.

(** X6 — in a run, a call to the launch endpoint comes right after a
    fetch that succeeded, and asks for the first region that the catalog
    of that fetch lists for the configured instance type, whose name is
    not empty. *)
Theorem launch_follows_the_fetch_it_answers (w : World) (cfg : Config)
    (fuel : nat) (s : State HealthStatus) (i : nat) (e : Event) :
  since s (snd (launchInstanceLoop w cfg fuel s)) !! i = Some e →
  is_launch e = true →
  ∃ j resp catalog data first others res,
    i = S j ∧
    since s (snd (launchInstanceLoop w cfg fuel s)) !! j
    = Some (EvDo (fetch_request (apiKey cfg)) (inl resp)) ∧
    Decode_InstanceTypes w (RespBody resp) = (catalog, None) ∧
    Data catalog !! instanceTypeName cfg = Some data ∧
    RegionsWithCapacityAvailable data = first :: others ∧
    Name first ≠ "" ∧
    e = EvDo (launch_request (apiKey cfg) (instanceTypeName cfg) (sshKeyName cfg)
                (Name first)) res.
Proof.
  destruct (launchInstanceLoop_run_events w cfg fuel s) as [_ Hrun].
  revert i. induction Hrun as [|pass rest outcome Hp _ IH|pass Hp]; intros i Hi He.
  - discriminate Hi.
  - destruct (decide (i < length pass)%nat) as [Hlt|Hge].
    + rewrite lookup_app_l in Hi by exact Hlt.
      destruct (pass_launch_at_3 w cfg _ pass i e Hp Hi He)
        as (resp & catalog & data & first & others & res & -> & Hf & Hrest).
      exists 2%nat, resp, catalog, data, first, others, res.
      split; [reflexivity|]. split; [|exact Hrest].
      rewrite lookup_app_l by lia. exact Hf.
    + rewrite lookup_app_r in Hi by lia.
      destruct (IH _ Hi He)
        as (j & resp & catalog & data & first & others & res & Hij & Hf & Hrest).
      exists (length pass + j)%nat, resp, catalog, data, first, others, res.
      split; [lia|]. split; [|exact Hrest].
      rewrite lookup_app_r by lia.
      replace (length pass + j - length pass)%nat with j by lia. exact Hf.
  - destruct (pass_launch_at_3 w cfg _ pass i e Hp Hi He)
      as (resp & catalog & data & first & others & res & -> & Hf & Hrest).
    exists 2%nat, resp, catalog, data, first, others, res. auto.
Qed.

Lemma launch_follows_the_fetch_it_answers_witness :
  ∃ j resp catalog data first others res,
    3%nat = S j ∧
    since main_start
      (snd (launchInstanceLoop (world_serving catalog_two) cfg_default 1 main_start))
    !! j = Some (EvDo (fetch_request (apiKey cfg_default)) (inl resp)) ∧
    Decode_InstanceTypes (world_serving catalog_two) (RespBody resp)
    = (catalog, None) ∧
    Data catalog !! instanceTypeName cfg_default = Some data ∧
    RegionsWithCapacityAvailable data = first :: others ∧
    Name first ≠ "" ∧
    EvDo (launch_request "" "gpu_1x_a6000" "my-key" "us-east-1")
      (inl {| StatusCode := 200; RespBody := "launched" |})
    = EvDo (launch_request (apiKey cfg_default) (instanceTypeName cfg_default)
              (sshKeyName cfg_default) (Name first)) res.
Proof.
  apply (launch_follows_the_fetch_it_answers (world_serving catalog_two)
           cfg_default 1 main_start 3
           (EvDo (launch_request "" "gpu_1x_a6000" "my-key" "us-east-1")
              (inl {| StatusCode := 200; RespBody := "launched" |}))).
  - vm_compute. reflexivity.
  - reflexivity.
Defined.

(** X7 — in a run, between two calls to the instance-types endpoint the
    loop has called [time.Sleep], with the error-retry interval or with
    the poll interval. *)
Theorem sleep_between_two_fetches (w : World) (cfg : Config) (fuel : nat)
    (s : State HealthStatus) (i j : nat) (e1 e2 : Event) :
  (i < j)%nat →
  since s (snd (launchInstanceLoop w cfg fuel s)) !! i = Some e1 →
  since s (snd (launchInstanceLoop w cfg fuel s)) !! j = Some e2 →
  is_fetch e1 = true → is_fetch e2 = true →
  ∃ k d,
    (i < k < j)%nat ∧
    since s (snd (launchInstanceLoop w cfg fuel s)) !! k = Some (EvSleep d) ∧
    (d = seconds (errorWait cfg) ∨ d = seconds (checkInterval cfg)).
Proof.
  destruct (launchInstanceLoop_run_events w cfg fuel s) as [_ Hrun].
  revert i j.
  induction Hrun as [|pass rest outcome Hp _ IH|pass Hp];
    intros i j Hij Hi Hj H1 H2.
  - discriminate Hi.
  - destruct (pass_fetch_at_2 w cfg _ pass Hp) as [_ Honly].
    destruct (pass_continue_ends_with_sleep w cfg pass Hp)
      as (d & Hlen & Hlast & Hd).
    destruct (decide (j < length pass)%nat) as [Hjl|Hjl].
    { rewrite lookup_app_l in Hi, Hj by lia.
      pose proof (Honly _ _ Hi H1). pose proof (Honly _ _ Hj H2). lia. }
    destruct (decide (i < length pass)%nat) as [Hil|Hil].
    + rewrite lookup_app_l in Hi by lia.
      pose proof (Honly _ _ Hi H1) as ->.
      exists (length pass - 1)%nat, d. split; [lia|]. split; [|exact Hd].
      rewrite lookup_app_l by lia. exact Hlast.
    + rewrite lookup_app_r in Hi, Hj by lia.
      destruct (IH (i - length pass)%nat (j - length pass)%nat)
        as (k & d' & Hk & Hsleep & Hd'); try assumption; [lia|].
      exists (length pass + k)%nat, d'. split; [lia|]. split; [|exact Hd'].
      rewrite lookup_app_r by lia.
      replace (length pass + k - length pass)%nat with k by lia. exact Hsleep.
  - destruct (pass_fetch_at_2 w cfg _ pass Hp) as [_ Honly].
    pose proof (Honly _ _ Hi H1). pose proof (Honly _ _ Hj H2). lia.
Qed.

Lemma sleep_between_two_fetches_witness :
  ∃ k d,
    (2 < k < 7)%nat ∧
    since main_start (snd (launchInstanceLoop world_down cfg_default 2 main_start))
    !! k = Some (EvSleep d) ∧
    (d = seconds (errorWait cfg_default) ∨ d = seconds (checkInterval cfg_default)).
Proof.
  apply (sleep_between_two_fetches world_down cfg_default 2 main_start 2 7
           (EvDo (fetch_request "") (inr (errors_New "connection refused")))
           (EvDo (fetch_request "") (inr (errors_New "connection refused")))).
  - lia.
  - vm_compute. reflexivity.
  - vm_compute. reflexivity.
  - reflexivity.
  - reflexivity.
Defined.

(** X11 — the loop polls once per pass and launches at most once per
    pass: a run of [fuel] passes that is still going has made exactly
    [fuel] fetch calls, a run that has returned at most [fuel] and at
    least one launch call, and there are never more launch calls than
    fetch calls. *)
Theorem one_fetch_per_pass (w : World) (cfg : Config) (fuel : nat)
    (s : State HealthStatus) :
  let r := launchInstanceLoop w cfg fuel s in
  let fetches := length (filter (λ e, is_fetch e = true) (since s (snd r))) in
  let launches := length (filter (λ e, is_launch e = true) (since s (snd r))) in
  (launches ≤ fetches ≤ fuel)%nat ∧
  (fst r = Running → fetches = fuel) ∧
  (fst r = Returned → (1 ≤ launches)%nat).
Proof.
  cbn zeta. revert s. induction fuel as [|fuel IH]; intros s.
  - cbn [launchInstanceLoop]. unfold mret, M_ret. cbn [fst snd].
    rewrite (since_app s s []) by (symmetry; apply app_nil_r).
    cbn. repeat split; try lia. discriminate.
  - destruct (launchInstanceLoop_run_events w cfg (S fuel) s) as [E _].
    revert E. rewrite launchInstanceLoop_S.
    destruct (loopBody_pass_events w cfg s) as [E1 H1].
    destruct (loopBody w cfg s) as [[|] s1]; cbn [fst snd] in *; intros E.
    + destruct (launchInstanceLoop_run_events w cfg fuel s1) as [E2 _].
      assert (Enew : since s (snd (launchInstanceLoop w cfg fuel s1))
                     = since s s1 ++ since s1 (snd (launchInstanceLoop w cfg fuel s1))).
      { apply since_app. rewrite E2. rewrite E1 at 1.
        rewrite <- app_assoc. reflexivity. }
      rewrite Enew, !filter_app, !length_app.
      destruct (pass_counts w cfg _ _ H1) as (Hf & Hl & _).
      destruct (IH s1) as (Hle & Hrun & Hret).
      rewrite Hf. repeat split; try lia.
      * intros Hr. rewrite (Hrun Hr). reflexivity.
      * intros Hr. specialize (Hret Hr). lia.
    + destruct (pass_counts w cfg _ _ H1) as (Hf & Hl & Hb).
      rewrite Hf, (Hb eq_refl). repeat split; try lia. discriminate.
Qed.

(** ** The two calls to the provider *)

(** X1 — [getInstanceTypes] logs one line and sends one request: a GET
    to the instance-types endpoint with no body and one header, the
    [Authorization] header that [SetBasicAuth(apiKey, "")] writes
    ([Basic] and the base64 of the API key followed by a colon).  It
    leaves [healthStatus] alone.  It returns a catalog without error
    exactly when the provider answered and the answer decoded to that
    catalog; with an error it returns the empty catalog. *)
Theorem getInstanceTypes_request (w : World) (cfg : Config)
    (s : State HealthStatus) :
  let req :=
    {| Method := "GET";
       URL := "https://cloud.lambdalabs.com/api/v1/instance-types";
       Body := None;
       Header := {[ "Authorization" := "Basic " +:+ base64 (apiKey cfg +:+ ":") ]} |} in
  let logged :=
    EvLog "Checking availability for instance type %s..."
      [ArgString (instanceTypeName cfg)] in
  let res := net_Do w (trace s ++ [logged]) req in
  snd (getInstanceTypes w cfg s)
  = mkState (globals s) (trace s ++ [logged; EvDo req res]) ∧
  (∀ catalog,
     fst (getInstanceTypes w cfg s) = (catalog, None) ↔
     ∃ resp, res = inl resp ∧
             Decode_InstanceTypes w (RespBody resp) = (catalog, None)) ∧
  (∀ catalog err,
     fst (getInstanceTypes w cfg s) = (catalog, Some err) →
     catalog = {| Data := ∅ |} ∧ failed_with (Decode_InstanceTypes w) res err).
Proof.
  cbn zeta. rewrite getInstanceTypes_eq. cbn zeta. cbn [fst snd].
  change (fetch_request (apiKey cfg)) with
    {| Method := "GET";
       URL := "https://cloud.lambdalabs.com/api/v1/instance-types";
       Body := None;
       Header := {[ "Authorization" := "Basic " +:+ base64 (apiKey cfg +:+ ":") ]} |}.
  split; [rewrite <- app_assoc; reflexivity|].
  destruct (net_Do w _ _) as [resp|err0]; cbn [failed_with].
  - destruct (Decode_InstanceTypes w (RespBody resp)) as [it [e|]] eqn:Hdec.
    + split.
      * intros catalog. split; [discriminate|].
        intros (resp' & [= <-] & Hdec'). congruence.
      * intros catalog err [= <- <-]. split; reflexivity.
    + split.
      * intros catalog. split.
        -- intros [= <-]. eauto.
        -- intros (resp' & [= <-] & Hdec'). congruence.
      * intros catalog err [=].
  - split.
    + intros catalog. split; [discriminate|]. intros (resp' & [=] & _).
    + intros catalog err [= <- <-]. auto.
Qed.

(** The header for the key [user] and for a key with a colon in it. *)
Example authorization_header :
  Header (fetch_request "user") !! "Authorization" = Some "Basic dXNlcjo=" ∧
  Header (fetch_request "ab:cd") !! "Authorization" = Some "Basic YWI6Y2Q6".
Proof. vm_compute. auto. Qed.

(** X10 — neither call looks at the status code of the answer: what
    [getInstanceTypes] and [launchInstance] return is the same whatever
    status code the provider answers with, the body being the same. *)
Theorem status_code_is_ignored (w : World) (cfg : Config) (code : Z)
    (regionName : string) (s : State HealthStatus) :
  fst (getInstanceTypes (override_status code w) cfg s)
  = fst (getInstanceTypes w cfg s) ∧
  fst (launchInstance (override_status code w) cfg regionName s)
  = fst (launchInstance w cfg regionName s).
Proof.
  rewrite !getInstanceTypes_eq, !launchInstance_eq. cbn zeta.
  cbn [fst override_status net_Do Decode_InstanceTypes Decode_any].
  split.
  - destruct (net_Do w _ _) as [resp|err]; reflexivity.
  - destruct (net_Do w _ _) as [resp|err]; reflexivity.
Qed.

(** A provider that answers every request with status 500 and a body. *)
Example launch_with_status_500 :
  fst (launchInstanceLoop (override_status 500 (world_serving catalog_two))
         cfg_default 1 main_start) = Returned.
Proof. vm_compute. reflexivity. Qed.

(** ** The second program against the first *)

(** X9 — the program without the health endpoint makes the calls of the
    program with it: from the same trace, with the same settings, after
    the same number of passes, the two loops have come to the same
    outcome and the same trace, whatever the port and [healthStatus]. *)
Theorem Plain_makes_the_same_calls (w : World) (cfg : Config) (fuel : nat)
    (s : State HealthStatus) :
  Plain.launchInstanceLoop w (plain_config cfg) fuel (forget s)
  = (fst (launchInstanceLoop w cfg fuel s),
     forget (snd (launchInstanceLoop w cfg fuel s))) ∧
  fst (Plain.getInstanceTypes w (plain_config cfg) (forget s))
  = fst (getInstanceTypes w cfg s) ∧
  (∀ catalog, Plain.checkInstanceAvailability (plain_config cfg) catalog
              = checkInstanceAvailability cfg catalog) ∧
  (∀ regionName,
     fst (Plain.launchInstance w (plain_config cfg) regionName (forget s))
     = fst (launchInstance w cfg regionName s)) ∧
  (∀ (pcfg : Plain.Config) (p : Z), plain_config (with_port pcfg p) = pcfg) ∧
  (∀ ps : State unit, forget ps = ps).
Proof.
  split; [apply Plain_launchInstanceLoop_sim|].
  split.
  { rewrite getInstanceTypes_eq. cbn zeta. cbn [fst].
    unfold Plain.getInstanceTypes, log_Printf, client_Do, emit, forget,
      mbind, mret, M_bind, M_ret.
    cbn -[baseUrl]. fold (fetch_request (apiKey cfg)).
    destruct (net_Do w _ _) as [resp|err]; [|reflexivity].
    destruct (Decode_InstanceTypes w (RespBody resp)) as [it [e|]]; reflexivity. }
  split; [reflexivity|]. split.
  { intros regionName. rewrite launchInstance_eq. cbn zeta. cbn [fst].
    unfold Plain.launchInstance, client_Do, forget, mbind, mret, M_bind, M_ret.
    cbn -[baseUrl].
    fold (launch_request (apiKey cfg) (instanceTypeName cfg) (sshKeyName cfg)
            regionName).
    destruct (net_Do w _ _) as [resp|err]; [|reflexivity].
    destruct (Decode_any w (RespBody resp)) as [r [e|]]; reflexivity. }
  split; [apply plain_config_with_port | apply forget_plain].
Qed.

(** ** What [init] can and cannot produce *)

(** X2 — the instance type [init] configures is never empty: it is the
    value of [INSTANCE_TYPE_NAME], and [gpu_1x_a6000] when that is unset
    or empty.  The API key and the SSH key name are taken as they are,
    empty when unset.  [init] logs its line exactly when [godotenv.Load]
    fails, that is when the [.env] file is missing or does not parse.
    The second program reads the same. *)
Theorem init_strings (dotenv : option (gmap string string))
    (environ : gmap string string) :
  let env := fst (godotenv_Load dotenv environ) in
  let cfg := fst (init dotenv environ) in
  instanceTypeName cfg ≠ "" ∧
  instanceTypeName cfg =
    (if decide (Getenv env "INSTANCE_TYPE_NAME" = "") then "gpu_1x_a6000"
     else Getenv env "INSTANCE_TYPE_NAME") ∧
  apiKey cfg = Getenv env "LAMBDA_API_KEY" ∧
  sshKeyName cfg = Getenv env "SSH_KEY_NAME" ∧
  (snd (init dotenv environ) = [] ↔ dotenv ≠ None) ∧
  Plain.init dotenv environ = (plain_config cfg, snd (init dotenv environ)).
Proof.
  cbn zeta. rewrite Plain_init_as_Health.
  unfold init. destruct dotenv as [file|]; cbn [godotenv_Load fst snd].
  - destruct (Atoi (Getenv (environ ∪ file) "CHECK_INTERVAL_SECONDS")) as [a ea].
    destruct (Atoi (Getenv (environ ∪ file) "ERROR_WAIT_SECONDS")) as [b eb].
    destruct (Atoi (Getenv (environ ∪ file) "PORT")) as [c ec].
    cbn [fst snd instanceTypeName apiKey sshKeyName].
    repeat split; try discriminate.
    destruct (decide (Getenv (environ ∪ file) "INSTANCE_TYPE_NAME" = ""));
      [discriminate|assumption].
  - destruct (Atoi (Getenv environ "CHECK_INTERVAL_SECONDS")) as [a ea].
    destruct (Atoi (Getenv environ "ERROR_WAIT_SECONDS")) as [b eb].
    destruct (Atoi (Getenv environ "PORT")) as [c ec].
    cbn [fst snd instanceTypeName apiKey sshKeyName].
    repeat split; try discriminate; try congruence.
    destruct (decide (Getenv environ "INSTANCE_TYPE_NAME" = ""));
      [discriminate|assumption].
Qed.

(** *** The range of [strconv.Atoi] *)

Lemma Atoi_loop_bound (s : string) (n m : Z) :
  Atoi_loop s n = (m, None) → 0 ≤ n →
  0 ≤ m ≤ n * 10 ^ Z.of_nat (String.length s) + 10 ^ Z.of_nat (String.length s) - 1.
Proof.
  revert n. induction s as [|c rest IH]; intros n; cbn [Atoi_loop String.length].
  - intros [= <-] Hn. cbn. lia.
  - cbn zeta. intros H Hn.
    pose proof (Z.mod_pos_bound (byte_val c - 48) 256 eq_refl) as Hch.
    set (ch := (byte_val c - 48) mod 256) in *.
    destruct (Z.ltb_spec 9 ch) as [|Hle]; [discriminate|].
    apply IH in H; [|lia].
    rewrite Nat2Z.inj_succ, Z.pow_succ_r by lia.
    assert (0 < 10 ^ Z.of_nat (String.length rest)) by (apply Z.pow_pos_nonneg; lia).
    nia.
Qed.

Lemma ParseUint_loop_nonneg (s : string) (n : Z) :
  0 ≤ n → 0 ≤ fst (ParseUint_loop s n).
Proof.
  revert n. induction s as [|c rest IH]; intros n Hn; cbn [ParseUint_loop].
  - exact Hn.
  - cbn zeta. destruct (negb _); [cbn; lia|].
    destruct (_ <=? n); [cbn; unfold maxUint64; lia|].
    destruct (_ || _); [cbn; unfold maxUint64; lia|].
    apply IH. apply Z.mod_pos_bound. lia.
Qed.

Lemma ParseUint_nonneg (s : string) : 0 ≤ fst (ParseUint s).
Proof.
  unfold ParseUint. destruct s; [cbn; lia|]. apply ParseUint_loop_nonneg. lia.
Qed.

Lemma ParseInt_range (s : string) : - 2 ^ 63 ≤ fst (ParseInt s) ≤ 2 ^ 63 - 1.
Proof.
  unfold ParseInt. destruct s as [|c rest]; [cbn; lia|]. cbn zeta.
  match goal with
  | |- context [ParseUint ?x] =>
      pose proof (ParseUint_nonneg x) as Hun; destruct (ParseUint x) as [un e]
  end.
  cbn [fst] in Hun.
  assert (Hrest :
    - 2 ^ 63 ≤ fst (if negb (c =? "-")%char && (2 ^ 63 <=? un)
                    then (2 ^ 63 - 1, Some ErrRange)
                    else if (c =? "-")%char && (2 ^ 63 <? un)
                         then (- 2 ^ 63, Some ErrRange)
                         else (if (c =? "-")%char then - un else un, None))
    ≤ 2 ^ 63 - 1).
  { destruct (c =? "-")%char; cbn [negb andb].
    - destruct (Z.ltb_spec (2 ^ 63) un); cbn [fst]; lia.
    - destruct (Z.leb_spec (2 ^ 63) un); cbn [fst]; lia. }
  destruct e as [[|]|]; [cbn; lia|exact Hrest|exact Hrest].
Qed.

(** Whatever the string, the value [Atoi] returns is an [int]. *)
Lemma Atoi_range (s : string) : - 2 ^ 63 ≤ fst (Atoi s) ≤ 2 ^ 63 - 1.
Proof.
  unfold Atoi. cbn zeta.
  destruct (Z.ltb_spec 0 (Z.of_nat (String.length s))) as [Hpos|];
    [|apply ParseInt_range].
  destruct (Z.ltb_spec (Z.of_nat (String.length s)) 19) as [Hlen|];
    [|apply ParseInt_range].
  cbn [andb]. destruct s as [|c rest]; [cbn; lia|].
  set (signed := (c =? "-")%char || (c =? "+")%char).
  set (s1 := if signed then rest else String c rest).
  assert (Hs1 : (String.length s1 ≤ 18)%nat).
  { subst s1. cbn [String.length] in Hlen. destruct signed; cbn [String.length]; lia. }
  destruct (signed && _); [cbn; lia|].
  destruct (Atoi_loop s1 0) as [n [e|]] eqn:Hloop; [cbn; lia|].
  apply Atoi_loop_bound in Hloop; [|lia].
  assert (10 ^ Z.of_nat (String.length s1) ≤ 10 ^ 18)
    by (apply Z.pow_le_mono_r; lia).
  destruct (c =? "-")%char; cbn [fst]; lia.
Qed.

(** X3 — the poll interval, the error-retry interval and the port that
    [init] configures are never 0 and always fit a 64-bit [int],
    whatever the [.env] file and the environment hold; so are the two
    intervals of the second program. *)
Theorem init_numbers_are_nonzero_ints (dotenv : option (gmap string string))
    (environ : gmap string string) (x : Setting) :
  let n := setting_value x (fst (init dotenv environ)) in
  let p := Plain.checkInterval (fst (Plain.init dotenv environ)) in
  let e := Plain.errorWait (fst (Plain.init dotenv environ)) in
  n ≠ 0 ∧ - 2 ^ 63 ≤ n ≤ 2 ^ 63 - 1 ∧
  p ≠ 0 ∧ - 2 ^ 63 ≤ p ≤ 2 ^ 63 - 1 ∧
  e ≠ 0 ∧ - 2 ^ 63 ≤ e ≤ 2 ^ 63 - 1.
Proof.
  assert (H : ∀ y, setting_value y (fst (init dotenv environ)) ≠ 0 ∧
                   - 2 ^ 63 ≤ setting_value y (fst (init dotenv environ))
                   ≤ 2 ^ 63 - 1).
  { intros y. rewrite init_setting. cbn zeta.
    pose proof (Atoi_range (Getenv (fst (godotenv_Load dotenv environ))
                              (setting_key y))) as Hr.
    destruct (Z.eqb_spec (fst (Atoi (Getenv (fst (godotenv_Load dotenv environ))
                                       (setting_key y)))) 0).
    - destruct y; cbn; lia.
    - split; [assumption|exact Hr]. }
  cbn zeta. rewrite Plain_init_as_Health. cbn [fst plain_config
    Plain.checkInterval Plain.errorWait].
  split; [apply H|]. split; [apply H|].
  split; [apply (H PollInterval)|]. split; [apply (H PollInterval)|].
  split; [apply (H ErrorRetryInterval) | apply (H ErrorRetryInterval)].
Qed.

(** ** How long the loop sleeps *)

(** X4 — [time.Duration(n) * time.Second] is [n] seconds exactly when
    [n] lies between -9223372036 and 9223372036; outside, the product
    wraps around.  Every interval above 9223372036 that [init] can
    configure and that is below 18446744073 comes out negative: the
    loop then does not wait at all. *)
Theorem seconds_exact_iff (n : Z) :
  (seconds n = n * 1000000000 ↔ -9223372036 ≤ n ≤ 9223372036) ∧
  - 2 ^ 63 ≤ seconds n < 2 ^ 63 ∧
  (9223372036 < n ≤ 18446744073 → seconds n < 0).
Proof.
  unfold seconds, wrap64, time_Second.
  pose proof (Z.mod_pos_bound (n * 1000000000 + 2 ^ 63) (2 ^ 64) eq_refl) as Hm.
  split; [split|split].
  - intros E.
    assert (0 ≤ n * 1000000000 + 2 ^ 63 < 2 ^ 64) by lia. lia.
  - intros H. rewrite Z.mod_small; lia.
  - lia.
  - intros H.
    assert (E : (n * 1000000000 + 2 ^ 63) mod 2 ^ 64
                = n * 1000000000 + 2 ^ 63 - 2 ^ 64).
    { symmetry. apply Z.mod_unique with (q := 1); lia. }
    rewrite E. lia.
Qed.

(** ** What the loop leaves in [healthStatus] *)

Lemma loopBody_globals (w : World) (cfg : Config) (s : State HealthStatus) :
  match fst (loopBody w cfg s) with
  | Continue =>
      globals (snd (loopBody w cfg s)) = globals s
      ∨ ∃ err, globals (snd (loopBody w cfg s))
               = {| Status := "error"; Result := nil_any; Error := error_Error err |}
  | Break =>
      ∃ result, globals (snd (loopBody w cfg s))
                = {| Status := "instance launched"; Result := result; Error := "" |}
  end.
Proof.
  rewrite loopBody_eq. cbn zeta.
  destruct (getInstanceTypes w cfg _) as [[it [err|]] s2] eqn:Hget.
  { right. eauto. }
  apply getInstanceTypes_state in Hget. cbn [globals trace] in Hget.
  destruct (checkInstanceAvailability cfg it) as [region [err|]].
  { right. eauto. }
  destruct (decide (region ≠ "")).
  - destruct (launchInstance w cfg region s2) as [[result [err|]] s3].
    + right. eauto.
    + cbn [fst snd]. eauto.
  - left. rewrite Hget. reflexivity.
Qed.

Lemma launchInstanceLoop_globals (w : World) (cfg : Config) (fuel : nat)
    (s : State HealthStatus) :
  match fst (launchInstanceLoop w cfg fuel s) with
  | Running =>
      globals (snd (launchInstanceLoop w cfg fuel s)) = globals s
      ∨ ∃ err, globals (snd (launchInstanceLoop w cfg fuel s))
               = {| Status := "error"; Result := nil_any; Error := error_Error err |}
  | Returned =>
      ∃ result, globals (snd (launchInstanceLoop w cfg fuel s))
                = {| Status := "instance launched"; Result := result; Error := "" |}
  end.
Proof.
  revert s. induction fuel as [|fuel IH]; intros s.
  - left. reflexivity.
  - rewrite launchInstanceLoop_S.
    pose proof (loopBody_globals w cfg s) as Hg.
    destruct (loopBody w cfg s) as [[|] s1]; cbn [fst snd] in *; [|exact Hg].
    specialize (IH s1).
    destruct (fst (launchInstanceLoop w cfg fuel s1)); [exact IH|].
    destruct IH as [E|[err E]]; [|right; eauto].
    rewrite E. exact Hg.
Qed.

(** X8 — every value a run leaves in [healthStatus] is well formed,
    when the run starts from a well-formed one, as the one [main] starts
    the loop with is: the status is running, error or instance launched
    and never starting, there is a result only with instance launched
    and an error message only with error.  And the status is instance
    launched exactly when the loop has returned.  (This is about the
    variable as the loop leaves it after a pass, not about what a
    handler running beside the loop may read.) *)
Theorem health_stays_wellformed (w : World) (cfg : Config) (fuel : nat)
    (s : State HealthStatus) :
  health_wellformed (globals s) →
  Status (globals s) ≠ "instance launched" →
  let r := launchInstanceLoop w cfg fuel s in
  health_wellformed (globals (snd r)) ∧
  Status (globals (snd r)) ≠ "starting" ∧
  (fst r = Returned ↔ Status (globals (snd r)) = "instance launched").
Proof.
  intros Hs Hnot. cbn zeta.
  pose proof (launchInstanceLoop_globals w cfg fuel s) as Hg.
  assert (Hstart : ∀ h, health_wellformed h → Status h ≠ "starting").
  { intros h [(E & _)|[(E & _)|(E & _)]]; rewrite E; discriminate. }
  destruct (fst (launchInstanceLoop w cfg fuel s)).
  - destruct Hg as [result E]. rewrite E. cbn [Status].
    split; [right; right; split; reflexivity|]. split; [discriminate|].
    split; reflexivity.
  - destruct Hg as [E|[err E]]; rewrite E.
    + split; [exact Hs|]. split; [apply Hstart, Hs|].
      split; [discriminate | intros H; contradiction].
    + cbn [Status]. split; [right; left; split; reflexivity|].
      split; [discriminate|]. split; discriminate.
Qed.

Lemma health_stays_wellformed_witness :
  let r := launchInstanceLoop world_retry cfg_default 4 main_start in
  health_wellformed (globals (snd r)) ∧
  Status (globals (snd r)) ≠ "starting" ∧
  (fst r = Returned ↔ Status (globals (snd r)) = "instance launched").
Proof.
  apply (health_stays_wellformed world_retry cfg_default 4 main_start).
  - left. vm_compute. auto.
  - vm_compute. discriminate.
Defined.

(** ** When the loop returns, and when it never does *)

(** X12 — when the provider answers every request, its catalog lists a
    region with a name for the configured instance type and its answer
    to the launch decodes, the loop returns in its first pass: one
    fetch, one launch for that region, the result logged and left in
    [healthStatus]. *)
Theorem loop_returns_in_the_first_pass (w : World) (cfg : Config)
    (catalog : InstanceTypes) (regionName : string) (fuel : nat)
    (s : State HealthStatus) :
  (∀ h req, ∃ resp, net_Do w h req = inl resp) →
  (∀ body, Decode_InstanceTypes w body = (catalog, None)) →
  (∀ body, snd (Decode_any w body) = None) →
  checkInstanceAvailability cfg catalog = (regionName, None) →
  regionName ≠ "" →
  let r := launchInstanceLoop w cfg (S fuel) s in
  fst r = Returned ∧
  ∃ resp resp',
    since s (snd r) =
    [EvLog "========================================" [];
     EvLog "Checking availability for instance type %s..."
       [ArgString (instanceTypeName cfg)];
     EvDo (fetch_request (apiKey cfg)) (inl resp);
     EvDo (launch_request (apiKey cfg) (instanceTypeName cfg) (sshKeyName cfg)
             regionName) (inl resp');
     EvLog "Instance launch result: %v\n"
       [ArgAny (fst (Decode_any w (RespBody resp')))]] ∧
    globals (snd r)
    = {| Status := "instance launched";
         Result := fst (Decode_any w (RespBody resp'));
         Error := "" |}.
Proof.
  intros Hnet Hcat Hany Hchk Hne. cbn zeta.
  rewrite launchInstanceLoop_S, loopBody_eq. cbn zeta.
  rewrite getInstanceTypes_eq. cbn zeta. cbn [globals trace].
  set (h1 := (trace s ++ _) ++ _).
  destruct (Hnet h1 (fetch_request (apiKey cfg))) as [resp ->].
  rewrite Hcat, Hchk.
  destruct (decide (regionName ≠ "")) as [_|Hno]; [|contradiction].
  rewrite launchInstance_eq. cbn zeta. cbn [globals trace].
  set (req := launch_request _ _ _ _).
  set (h2 := h1 ++ _).
  destruct (Hnet h2 req) as [resp' ->].
  pose proof (Hany (RespBody resp')) as Hdec.
  destruct (Decode_any w (RespBody resp')) as [result e] eqn:Hd.
  cbn [snd] in Hdec. subst e. cbn [fst snd].
  split; [reflexivity|]. exists resp, resp'. rewrite Hd. cbn [fst].
  split; [|reflexivity].
  apply since_app. cbn [trace]. subst h2 h1.
  rewrite <- !app_assoc. reflexivity.
Qed.

Lemma loop_returns_in_the_first_pass_witness :
  let r := launchInstanceLoop (world_serving catalog_two) cfg_default 3 main_start in
  fst r = Returned ∧
  ∃ resp resp',
    since main_start (snd r) =
    [EvLog "========================================" [];
     EvLog "Checking availability for instance type %s..."
       [ArgString (instanceTypeName cfg_default)];
     EvDo (fetch_request (apiKey cfg_default)) (inl resp);
     EvDo (launch_request (apiKey cfg_default) (instanceTypeName cfg_default)
             (sshKeyName cfg_default) "us-east-1") (inl resp');
     EvLog "Instance launch result: %v\n"
       [ArgAny (fst (Decode_any (world_serving catalog_two) (RespBody resp')))]] ∧
    globals (snd r)
    = {| Status := "instance launched";
         Result := fst (Decode_any (world_serving catalog_two) (RespBody resp'));
         Error := "" |}.
Proof.
  apply (loop_returns_in_the_first_pass (world_serving catalog_two) cfg_default
           catalog_two "us-east-1" 2 main_start).
  - intros h req. cbn [world_serving net_Do].
    destruct (bool_decide (Method req = "GET")); eexists; reflexivity.
  - intros body. reflexivity.
  - intros body. reflexivity.
  - vm_compute. reflexivity.
  - discriminate.
Defined.

(** X13 — when no catalog the provider can answer with lists a region
    with a name for the configured instance type, the loop never returns
    and never calls the launch endpoint: after any number of passes it
    is still going and has polled once per pass. *)
Theorem loop_goes_on_without_capacity (w : World) (cfg : Config) (fuel : nat)
    (s : State HealthStatus) :
  (∀ body catalog,
     Decode_InstanceTypes w body = (catalog, None) →
     fst (checkInstanceAvailability cfg catalog) = "") →
  let r := launchInstanceLoop w cfg fuel s in
  fst r = Running ∧
  Forall (λ e, is_launch e = false) (since s (snd r)) ∧
  length (filter (λ e, is_fetch e = true) (since s (snd r))) = fuel.
Proof.
  intros Hnone. cbn zeta.
  assert (Hpass : ∀ c l, pass_events w cfg c l →
            c = Continue ∧ Forall (λ e, is_launch e = false) l).
  { intros c l H.
    inversion H as [res err Hf | resp catalog Hdec Hchk
                    | resp catalog region res err Hdec Hchk Hne Hf
                    | resp catalog region resp' result Hdec Hchk Hne Hdec'];
      subst.
    - split; [reflexivity|]. repeat constructor.
    - split; [reflexivity|]. repeat constructor.
    - pose proof (Hnone _ _ Hdec) as E. rewrite Hchk in E. contradiction.
    - pose proof (Hnone _ _ Hdec) as E. rewrite Hchk in E. contradiction. }
  revert s. induction fuel as [|fuel IH]; intros s.
  - cbn [launchInstanceLoop]. unfold mret, M_ret. cbn [fst snd].
    rewrite (since_app s s []) by (symmetry; apply app_nil_r).
    repeat split. constructor.
  - rewrite launchInstanceLoop_S.
    destruct (loopBody_pass_events w cfg s) as [E1 H1].
    destruct (Hpass _ _ H1) as [Hc Hl1].
    destruct (pass_counts w cfg _ _ H1) as (Hf1 & _).
    destruct (loopBody w cfg s) as [c s1]. cbn [fst snd] in *. subst c.
    destruct (IH s1) as (Hrun & Hl & Hf).
    destruct (launchInstanceLoop_run_events w cfg fuel s1) as [E2 _].
    assert (Enew : since s (snd (launchInstanceLoop w cfg fuel s1))
                   = since s s1 ++ since s1 (snd (launchInstanceLoop w cfg fuel s1))).
    { apply since_app. rewrite E2. rewrite E1 at 1.
      rewrite <- app_assoc. reflexivity. }
    rewrite Enew, filter_app, length_app, Hf1, Hf.
    split; [exact Hrun|]. split; [apply Forall_app; auto | reflexivity].
Qed.

Lemma loop_goes_on_without_capacity_witness :
  let r := launchInstanceLoop (world_serving catalog_unnamed) cfg_default 40
             main_start in
  fst r = Running ∧
  Forall (λ e, is_launch e = false) (since main_start (snd r)) ∧
  length (filter (λ e, is_fetch e = true) (since main_start (snd r))) = 40%nat.
Proof.
  apply (loop_goes_on_without_capacity (world_serving catalog_unnamed)
           cfg_default 40 main_start).
  intros body catalog [= <-]. vm_compute. reflexivity.
Defined.
